(** * Hack assembler (Assembler/Assembler.py): a shallow embedding

    The assembler translates Hack assembly into 16-character binary words in
    two passes: [Reader.read_source] strips the lines, removes the label
    definitions and records them in the symbol table; [Translator.translate]
    encodes each remaining line, allocating variable addresses on demand.

    Strings are Rocq strings whose characters stand for the code points
    0..255; Python integers are [Z]; the dictionary of [SymbolTable] is a
    [gmap string Z]; [sys.exit] and the uncaught exceptions are values of
    [error]. *)

From Stdlib Require Import ZArith Ascii String List Lia DecimalString.
From stdpp Require Import gmap strings list fin_maps.

Local Open Scope Z_scope.
Local Open Scope string_scope.

(** ** Python string primitives used by the assembler *)

Module PyStr.

(** [str.isspace] on one character of the range 0..255: the ASCII white
    space, the separators 0x1c..0x1f, NEL (0x85) and NBSP (0xa0). *)
Definition is_space (c : ascii) : bool :=
  let n := nat_of_ascii c in
  ((9 <=? n)%nat && (n <=? 13)%nat) || ((28 <=? n)%nat && (n <=? 32)%nat)
  || (n =? 133)%nat || (n =? 160)%nat.

(** [s.lstrip()]. *)
Fixpoint lstrip (s : string) : string :=
  match s with
  | String c s' => if is_space c then lstrip s' else s
  | EmptyString => EmptyString
  end.

(** [s.rstrip()]: a character is dropped when it is white space and all that
    follows it has been dropped. *)
Fixpoint rstrip (s : string) : string :=
  match s with
  | String c s' =>
      match rstrip s' with
      | EmptyString => if is_space c then EmptyString else String c EmptyString
      | r => String c r
      end
  | EmptyString => EmptyString
  end.

(** [s.strip()]. *)
Definition strip (s : string) : string := rstrip (lstrip s).

(** [s.startswith(c)] for a one-character prefix. *)
Definition startswith (c : ascii) (s : string) : bool :=
  match s with
  | String d _ => Ascii.eqb c d
  | EmptyString => false
  end.

(** [c in s] for a one-character needle. *)
Fixpoint contains (c : ascii) (s : string) : bool :=
  match s with
  | String d s' => Ascii.eqb c d || contains c s'
  | EmptyString => false
  end.

(** [s.split(c)] for a one-character separator: never empty. *)
Fixpoint split (c : ascii) (s : string) : list string :=
  match s with
  | String d s' =>
      if Ascii.eqb c d then EmptyString :: split c s'
      else match split c s' with
           | hd :: tl => String d hd :: tl
           | [] => [String d EmptyString]
           end
  | EmptyString => [EmptyString]
  end.

(** [s.split("//")[0]]: the text before the first two adjacent slashes. *)
Fixpoint split_slashes_0 (s : string) : string :=
  match s with
  | String "/" (String "/" _) => EmptyString
  | String c s' => String c (split_slashes_0 s')
  | EmptyString => EmptyString
  end.

(** [s[1:]]. *)
Definition drop_first (s : string) : string :=
  match s with
  | String _ s' => s'
  | EmptyString => EmptyString
  end.

(** [s[:-1]]. *)
Fixpoint drop_last (s : string) : string :=
  match s with
  | String c EmptyString => EmptyString
  | String c s' => String c (drop_last s')
  | EmptyString => EmptyString
  end.

(** [s[1:-1]]: Python slices the original string once, so a one-character
    string yields the empty string, as here. *)
Definition slice_1_m1 (s : string) : string := drop_last (drop_first s).

(** [n * c]: a repetition count below one gives the empty string. *)
Definition repeat_char (n : Z) (c : ascii) : string :=
  string_of_list_ascii (List.repeat c (Z.to_nat n)).

(** [len(s)]. *)
Definition len (s : string) : Z := Z.of_nat (String.length s).

(** [str(n)] for an integer. The integers the assembler turns into text
    are addresses; CPython's cap on the digits of a conversion
    ([int_max_str_digits] below) is out of their reach. *)
Definition str (n : Z) : string := NilZero.string_of_int (Z.to_int n).

(** The binary digits of a positive number, most significant first, in
    front of [acc]. *)
Fixpoint bin_pos (p : positive) (acc : string) : string :=
  match p with
  | xH => String "1" acc
  | xO p' => bin_pos p' (String "0" acc)
  | xI p' => bin_pos p' (String "1" acc)
  end.

(** [f"{n:b}"]. *)
Definition format_b (n : Z) : string :=
  match n with
  | Z0 => "0"
  | Zpos p => bin_pos p EmptyString
  | Zneg p => String "-" (bin_pos p EmptyString)
  end.

Definition is_digit (c : ascii) : bool :=
  let n := nat_of_ascii c in (48 <=? n)%nat && (n <=? 57)%nat.

Definition digit_value (c : ascii) : Z := Z.of_nat (nat_of_ascii c) - 48.

(** The white space [int] accepts around a literal: the white space of C
    (tab to carriage return, and the blank), which the parser skips, and
    the white space above the ASCII range, NEL (0x85) and NBSP (0xa0), which
    [int] turns into blanks before it parses. The separators 0x1c..0x1f,
    white space to [str.strip], are none to [int]. *)
Definition is_int_space (c : ascii) : bool :=
  let n := nat_of_ascii c in
  ((9 <=? n)%nat && (n <=? 13)%nat) || (n =? 32)%nat
  || (n =? 133)%nat || (n =? 160)%nat.

(** [s] from its first character that is not white space to [int]. *)
Fixpoint skip_int_space (s : string) : string :=
  match s with
  | String c s' => if is_int_space c then skip_int_space s' else s
  | EmptyString => EmptyString
  end.

(** Whether [s] is white space to [int] from end to end. *)
Definition only_int_space (s : string) : bool :=
  match skip_int_space s with
  | EmptyString => true
  | String _ _ => false
  end.

(** [sys.int_info.default_max_str_digits]: CPython (from 3.11 on, and the
    security releases of the versions before) refuses a decimal literal of
    more digits with [ValueError]; the script leaves the default in
    place. *)
Definition int_max_str_digits : Z := 4300.

(** The digits of an [int] literal and what may follow them: decimal
    digits, with single underscores allowed between two digits, then white
    space only. [digits] counts the digits read, leading zeros included and
    underscores not; [prev] tells whether the previous character was a
    digit. *)
Fixpoint int_digits (s : string) (acc digits : Z) (prev : bool) : option Z :=
  match s with
  | String c s' =>
      if is_digit c then
        int_digits s' (10 * acc + digit_value c) (digits + 1) true
      else if Ascii.eqb c "_" then
        (if prev then int_digits s' acc digits false else None)
      else if prev && only_int_space s && (digits <=? int_max_str_digits)%Z
      then Some acc
      else None
  | EmptyString =>
      if prev && (digits <=? int_max_str_digits)%Z then Some acc else None
  end.

(** [int(s)]: [None] stands for [ValueError]. White space before the
    literal is skipped, one sign is accepted, and the digits follow the sign
    at once. *)
Definition int (s : string) : option Z :=
  match skip_int_space s with
  | String c d =>
      if Ascii.eqb c "+" then int_digits d 0 0 false
      else if Ascii.eqb c "-" then Z.opp <$> int_digits d 0 0 false
      else int_digits (String c d) 0 0 false
  | EmptyString => None
  end.

(** [s.find(sub)]: the index of the first occurrence of [sub] in [s], or -1
    when there is none. *)
Fixpoint find (sub s : string) : Z :=
  if String.prefix sub s then 0
  else match s with
       | String _ s' =>
           let i := find sub s' in if (i <? 0)%Z then -1 else i + 1
       | EmptyString => -1
       end.

(** [s.split(sep)] for a separator of one character or more (Python raises
    [ValueError] for an empty one): the occurrences are taken from left to
    right and do not overlap. [skip] counts the characters of an occurrence
    still to pass over; a call from outside gives 0. *)
Fixpoint split_sep (sep s : string) (skip : nat) : list string :=
  match s with
  | String c s' =>
      match skip with
      | S skip' => split_sep sep s' skip'
      | O =>
          if String.prefix sep s
          then EmptyString :: split_sep sep s' (String.length sep - 1)
          else match split_sep sep s' 0 with
               | hd :: tl => String c hd :: tl
               | [] => [String c EmptyString]
               end
      end
  | EmptyString => [EmptyString]
  end.

(** Whether [s] starts with white space. *)
Definition at_space (s : string) : bool :=
  match s with
  | String c _ => is_space c
  | EmptyString => false
  end.

(** [s.split()]: the words that runs of white space separate; no word is
    empty. *)
Fixpoint split_ws (s : string) : list string :=
  match s with
  | String c s' =>
      if is_space c then split_ws s'
      else if at_space s' then String c EmptyString :: split_ws s'
      else match split_ws s' with
           | hd :: tl => String c hd :: tl
           | [] => [String c EmptyString]
           end
  | EmptyString => []
  end.

(** [sep.join(l)]. *)
Definition join (sep : string) (l : list string) : string :=
  String.concat sep l.

End PyStr.

(** ** Python values and failures *)

(** What [SymbolTable.get_value] returns: a stored integer, or [False]. *)
Inductive pyval : Type :=
  | PyInt (n : Z)
  | PyFalse.

(** Truth value of [v], as tested by [if v] and [not v]: [False] and the
    integer 0 are both false. *)
Definition truthy (v : pyval) : bool :=
  match v with
  | PyInt n => negb (n =? 0)%Z
  | PyFalse => false
  end.

(** [v is False]: identity with the [False] object; the integer 0 is not it. *)
Definition is_False (v : pyval) : bool :=
  match v with
  | PyInt _ => false
  | PyFalse => true
  end.

(** [v] where an integer is asked for, as in [f"{v:b}"]: [bool] is a subclass
    of [int] and [False] is its 0. *)
Definition int_value (v : pyval) : Z :=
  match v with
  | PyInt n => n
  | PyFalse => 0
  end.

(** The ways a run ends abnormally: [sys.exit(status)], or an exception that
    nothing catches. *)
Inductive error : Type :=
  | SystemExit (status : Z)
  | KeyError (key : string)
  | UnboundLocalError
  | OSError.


(** ** class SymbolTable *)

Module SymbolTable.

Definition store_symbol (symbol : string) (address : Z)
    (table : gmap string Z) : gmap string Z :=
  <[symbol := address]> table.

Definition get_value (symbol : string) (table : gmap string Z) : pyval :=
  match table !! symbol with
  | Some address => PyInt address
  | None => PyFalse
  end.

Definition _get_defaults : gmap string Z :=
  let table : gmap string Z := ∅ in
  let table := <["SP" := 0]> table in
  let table := <["LCL" := 1]> table in
  let table := <["ARG" := 2]> table in
  let table := <["THIS" := 3]> table in
  let table := <["THAT" := 4]> table in
  let table := <["SCREEN" := 16384]> table in
  let table := <["KBD" := 24576]> table in
  foldl (fun table i => <["R" ++ PyStr.str i := i]> table) table (seqZ 0 16).

End SymbolTable.

(** ** Results of fallible code *)

Inductive result (A : Type) : Type :=
  | Ok (a : A)
  | Raise (e : error).
Arguments Ok {A} a.
Arguments Raise {A} e.

#[global] Instance result_ret : MRet result := λ A a, Ok a.
#[global] Instance result_bind : MBind result := λ A B f r,
  match r with
  | Ok a => f a
  | Raise e => Raise e
  end.
#[global] Instance result_fmap : FMap result := λ A B f r,
  match r with
  | Ok a => Ok (f a)
  | Raise e => Raise e
  end.

(** ** class Reader *)

Module Reader.

(** [check_if_label]: the first component is the returned value, [None]
    standing for [False]; the second is the symbol table afterwards. *)
Definition check_if_label (code_piece : string) (counter : Z)
    (symbol_table : gmap string Z) : option string * gmap string Z :=
  if PyStr.startswith "(" code_piece then
    let label_name := PyStr.slice_1_m1 code_piece in
    if negb (truthy (SymbolTable.get_value label_name symbol_table)) then
      (None, SymbolTable.store_symbol label_name (counter + 1) symbol_table)
    else (None, symbol_table)
  else (Some code_piece, symbol_table).

(** The variables of the loop of [read_source]. *)
Record state : Type := State {
  program_code : list string;
  line_counter : Z;
  symbol_table : gmap string Z
}.

(** [line.strip().split("//")[0].strip()]. *)
Definition line_part (line : string) : string :=
  PyStr.strip (PyStr.split_slashes_0 (PyStr.strip line)).

(** One turn of the loop over the lines of the file. *)
Definition read_line (st : state) (line : string) : state :=
  let line_part := line_part line in
  if (PyStr.len line_part >? 0)%Z then
    match check_if_label line_part (line_counter st) (symbol_table st) with
    | (Some code_piece, table) =>
        if negb (String.eqb code_piece EmptyString) then
          State (program_code st ++ [code_piece]) (line_counter st + 1) table
        else State (program_code st) (line_counter st) table
    | (None, table) => State (program_code st) (line_counter st) table
    end
  else st.

Definition initial : state := State [] (-1) SymbolTable._get_defaults.

(** [read_source] on the lines of the source file. *)
Definition read_source (infile : list string) : list string * gmap string Z :=
  let st := foldl read_line initial infile in
  (program_code st, symbol_table st).

End Reader.

(** ** class Translator *)

Module Translator.

Definition A_INSTRUCTION_LENGTH : Z := 15.
Definition A_SIZE : Z := 2 ^ 15 - 1.
Definition A_OP_CODE : Z := 0.
Definition C_OP_CODE : Z := 1.
Definition C_FILLER : Z := 11.

(** The dictionary of dictionaries [_setup_c_map] reads from the file
    c_instruction_map, one per field of [C_FIELDS]. *)
Record c_map : Type := CMap {
  comp : gmap string string;
  dest : gmap string string;
  jmp : gmap string string
}.

(** The attributes of a translator that change during [translate]. *)
Record translator : Type := Translator {
  next_free_mem : Z;
  symbol_table : gmap string Z
}.

(** [Translator.__init__]. *)
Definition init (symbol_table : gmap string Z) : translator :=
  Translator 16 symbol_table.

Definition _allocate_address_if_needed (address_key : string)
    (self : translator) : Z * translator :=
  match SymbolTable.get_value address_key (symbol_table self) with
  | PyFalse =>
      let address := next_free_mem self in
      (address,
       Translator (next_free_mem self + 1)
         (SymbolTable.store_symbol address_key address (symbol_table self)))
  | PyInt address => (address, self) (* [address is False] does not hold *)
  end.

Definition _handle_bad_address (address : pyval) : result unit :=
  if is_False address then Raise (SystemExit 3) else Ok tt.

(** [address] is rebound to what the symbol table gives, possibly [False];
    the formatting that follows [_handle_bad_address] takes it as an
    integer. *)
Definition _convert_a_instruction (address : Z) (self : translator)
    : result string :=
  let address :=
    if (address >? A_SIZE)%Z
    then SymbolTable.get_value (PyStr.str address) (symbol_table self)
    else PyInt address in
  _ ← _handle_bad_address address;
  let addr := PyStr.format_b (int_value address) in
  let zeros_to_fill := A_INSTRUCTION_LENGTH - PyStr.len addr in
  Ok (PyStr.str A_OP_CODE ++ PyStr.repeat_char zeros_to_fill "0" ++ addr).

Definition process_a_instruction (code_piece : string) (self : translator)
    : result (string * translator) :=
  let address_key := PyStr.drop_first code_piece in
  match PyStr.int address_key with
  | Some address =>
      instr ← _convert_a_instruction address self; Ok (instr, self)
  | None =>
      let '(address, self) := _allocate_address_if_needed address_key self in
      instr ← _convert_a_instruction address self; Ok (instr, self)
  end.

Section Encoder.

Variable c_instruction_map : c_map.

(** [self.c_instruction_map[field][field_v]]. *)
Definition lookup_field (field : gmap string string) (field_v : string)
    : result string :=
  match field !! field_v with
  | Some code => Ok code
  | None => Raise (KeyError field_v)
  end.

Definition _convert_c_instruction (comp_v dest_v jmp_v : string)
    : result string :=
  let instruction := PyStr.str C_OP_CODE ++ PyStr.str C_FILLER in
  c ← lookup_field (comp c_instruction_map) comp_v;
  let instruction := instruction ++ c in
  d ← lookup_field (dest c_instruction_map) dest_v;
  let instruction := instruction ++ d in
  j ← lookup_field (jmp c_instruction_map) jmp_v;
  Ok (instruction ++ j).

(** [l[i]] on the result of a split; the source only indexes below the
    length, the default is never returned. *)
Definition item (l : list string) (i : nat) : string := nth i l EmptyString.

Definition process_c_instruction (code_piece : string) : result string :=
  if PyStr.contains "=" code_piece then
    let dest_v := item (PyStr.split "=" code_piece) 0 in
    let comp_v := item (PyStr.split "=" code_piece) 1 in
    _convert_c_instruction comp_v dest_v "null"
  else if PyStr.contains ";" code_piece then
    let comp_v := item (PyStr.split ";" code_piece) 0 in
    let jmp_v := item (PyStr.split ";" code_piece) 1 in
    _convert_c_instruction comp_v "null" jmp_v
  else Raise UnboundLocalError.

(** The body of the loop of [translate] up to the write: the word for one
    line. *)
Definition encode (assembly_code : string) (self : translator)
    : result (string * translator) :=
  if PyStr.startswith "@" assembly_code then
    process_a_instruction assembly_code self
  else
    instr ← process_c_instruction assembly_code; Ok (instr, self).

(** [translate]: [outfile] holds the lines written so far, each without its
    newline. A failure leaves the lines written before it in the file. *)
Fixpoint translate_loop (code : list string) (self : translator)
    (outfile : list string) : list string * result translator :=
  match code with
  | [] => (outfile, Ok self)
  | assembly_code :: code =>
      match encode assembly_code self with
      | Ok (instr, self) => translate_loop code self (outfile ++ [instr])
      | Raise e => (outfile, Raise e)
      end
  end.

Definition translate (code : list string) (self : translator)
    : list string * result translator :=
  translate_loop code self [].

End Encoder.

Definition C_FIELDS : list string := ["comp"; "dest"; "jmp"].

(** [c_map[field]] for a field name of [C_FIELDS]. *)
Definition get_field (field : string) (cmap : c_map) : gmap string string :=
  if String.eqb field "comp" then comp cmap
  else if String.eqb field "dest" then dest cmap
  else jmp cmap.

(** [c_map[field][key] = code] for a field name of [C_FIELDS]. *)
Definition set_item (field key code : string) (cmap : c_map) : c_map :=
  if String.eqb field "comp"
  then CMap (<[key := code]> (comp cmap)) (dest cmap) (jmp cmap)
  else if String.eqb field "dest"
  then CMap (comp cmap) (<[key := code]> (dest cmap)) (jmp cmap)
  else CMap (comp cmap) (dest cmap) (<[key := code]> (jmp cmap)).

(** The body of the inner loop of [_setup_c_map], for one line and one
    field. *)
Definition setup_field (line : string) (cmap : c_map) (field : string)
    : c_map :=
  let tag := "<" ++ field ++ ">" in
  if (PyStr.find tag line >? 0)%Z then
    let line_parts := PyStr.split_sep tag (PyStr.strip line) 0 in
    let key := PyStr.strip (item line_parts 0) in
    let code := PyStr.strip (item line_parts 1) in
    let code := PyStr.join "" (PyStr.split_ws code) in
    set_item field key code cmap
  else cmap.

(** The body of the outer loop of [_setup_c_map], for one line. *)
Definition setup_line (cmap : c_map) (line : string) : c_map :=
  foldl (setup_field line) cmap C_FIELDS.

(** [_setup_c_map] on the lines of the file c_instruction_map. *)
Definition _setup_c_map (infile : list string) : c_map :=
  foldl setup_line (CMap ∅ ∅ ∅) infile.

End Translator.

(** ** The module-level functions and the script *)

(** What the script can observe of the path it is given. *)
Inductive path : Type :=
  | Missing
      (* [exists()] is false *)
  | File (suffix : string) (infile : option (list string))
      (* a regular file: its suffix and its lines, [None] when it cannot be
         opened for reading *)
  | Dir (asm_files : list (option (list string)))
      (* a directory: the files [glob("*.asm")] yields, in that order *)
  | Special.
      (* exists, but neither a regular file nor a directory *)

Definition is_asm_input (suffix : string) : result bool :=
  if negb (String.eqb suffix ".asm") then Raise (SystemExit 3) else Ok true.

Section Script.

Variable c_instruction_map : Translator.c_map.

(** [_translate_assembly_to_hack]: the .hack files written (none when the
    source cannot be opened, else one, holding the lines written before
    the call ended) and how the call ended. *)
Definition _translate_assembly_to_hack (source : option (list string))
    : list (list string) * result unit :=
  match source with
  | None => ([], Raise OSError)
  | Some infile =>
      let '(source_code, symbol_table) := Reader.read_source infile in
      let '(outfile, r) :=
        Translator.translate c_instruction_map source_code
          (Translator.init symbol_table) in
      ([outfile], _ ← r; Ok tt)
  end.

(** The loop of [main] over the files of a directory: the output files
    written and how the loop ended. *)
Fixpoint translate_all (files : list (option (list string)))
    : list (list string) * result unit :=
  match files with
  | [] => ([], Ok tt)
  | file_obj :: files =>
      match _translate_assembly_to_hack file_obj with
      | (outfiles, Ok _) =>
          let '(more, r) := translate_all files in ((outfiles ++ more)%list, r)
      | (outfiles, Raise e) => (outfiles, Raise e)
      end
  end.

Definition main (source_path : path) : list (list string) * result unit :=
  match source_path with
  | File suffix infile =>
      match is_asm_input suffix with
      | Ok _ => _translate_assembly_to_hack infile
      | Raise e => ([], Raise e)
      end
  | Dir asm_files => translate_all asm_files
  | Missing | Special => ([], Ok tt)
  end.

(** The block under [if __name__ == '__main__']; [argv1] is [sys.argv[1]],
    [None] when the script got no argument. *)
Definition script (argv1 : option path) : list (list string) * result unit :=
  match argv1 with
  | None => ([], Raise (SystemExit 3))
  | Some Missing => ([], Raise (SystemExit 3))
  | Some input_path => main input_path
  end.


End Script.

(** A mnemonic table with the entries of the Hack machine language, in the
    layout [_setup_c_map] builds. The file c_instruction_map itself is not
    part of the sources: the theorems take the table as a parameter, and
    this one only serves to run examples. *)
Definition hack_c_map : Translator.c_map :=
  Translator.CMap
    (list_to_map
       [("0", "0101010"); ("1", "0111111"); ("-1", "0111010");
        ("D", "0001100"); ("A", "0110000"); ("M", "1110000");
        ("!D", "0001101"); ("!A", "0110001"); ("!M", "1110001");
        ("-D", "0001111"); ("-A", "0110011"); ("-M", "1110011");
        ("D+1", "0011111"); ("A+1", "0110111"); ("M+1", "1110111");
        ("D-1", "0001110"); ("A-1", "0110010"); ("M-1", "1110010");
        ("D+A", "0000010"); ("D+M", "1000010");
        ("D-A", "0010011"); ("D-M", "1010011");
        ("A-D", "0000111"); ("M-D", "1000111");
        ("D&A", "0000000"); ("D&M", "1000000");
        ("D|A", "0010101"); ("D|M", "1010101")])
    (list_to_map
       [("null", "000"); ("M", "001"); ("D", "010"); ("MD", "011");
        ("A", "100"); ("AM", "101"); ("AD", "110"); ("AMD", "111")])
    (list_to_map
       [("null", "000"); ("JGT", "001"); ("JEQ", "010"); ("JGE", "011");
        ("JLT", "100"); ("JNE", "101"); ("JLE", "110"); ("JMP", "111")]).

(** ** Reference notions the statements use *)

(** [n] written in binary on exactly [w] characters, most significant bit
    first. *)
Fixpoint bits (w : nat) (n : Z) : string :=
  match w with
  | O => EmptyString
  | S w' =>
      String (if Z.testbit n (Z.of_nat w') then "1" else "0")%char (bits w' n)
  end.

Definition is_bit (c : ascii) : bool := Ascii.eqb c "0" || Ascii.eqb c "1".

(** A bit string of a given length: [len] characters, each 0 or 1. *)
Definition is_fragment (len : nat) (s : string) : Prop :=
  String.length s = len ∧ forallb is_bit (list_ascii_of_string s) = true.

(** A word of the output: 16 characters, each 0 or 1. *)
Definition is_word16 (w : string) : Prop := is_fragment 16 w.

(** [_allocate_address_if_needed] on each name of [keys] in turn: the
    addresses returned, in order, and the translator afterwards. *)
Fixpoint allocate_all (keys : list string) (self : Translator.translator)
    : list Z * Translator.translator :=
  match keys with
  | [] => ([], self)
  | address_key :: keys =>
      let '(address, self) :=
        Translator._allocate_address_if_needed address_key self in
      let '(addresses, self) := allocate_all keys self in
      (address :: addresses, self)
  end.

(** The elements of a list, each kept at its first occurrence only. *)
Fixpoint first_occurrences (l : list string) : list string :=
  match l with
  | [] => []
  | x :: l => x :: filter (λ y, y ≠ x) (first_occurrences l)
  end.

(** The new variables of a sequence of references: the names [table] does
    not bind, in the order of their first reference. *)
Definition new_names (table : gmap string Z) (keys : list string)
    : list string :=
  first_occurrences (filter (λ k, table !! k = None) keys).

(** The names an instruction sequence hands to
    [_allocate_address_if_needed]: the values of the A-instructions that are
    not integer literals. *)
Definition symbol_refs (code : list string) : list string :=
  omap (λ assembly_code,
          if PyStr.startswith "@" assembly_code then
            match PyStr.int (PyStr.drop_first assembly_code) with
            | None => Some (PyStr.drop_first assembly_code)
            | Some _ => None
            end
          else None) code.


(** The instruction lines of a source, stripped: the lines that are neither
    blank nor label definitions. *)
Definition instructions (infile : list string) : list string :=
  omap (λ line,
          let line_part := Reader.line_part line in
          if (PyStr.len line_part >? 0)%Z
             && negb (PyStr.startswith "(" line_part)
          then Some line_part else None) infile.

#[global] Instance is_fragment_dec (len : nat) (s : string) :
  Decision (is_fragment len s).
Proof. unfold is_fragment. apply _. Defined.

(** A mnemonic table of the Hack layout: computations on 7 bits,
    destinations and jumps on 3 bits each. *)
Definition c_map_wf (c_instruction_map : Translator.c_map) : Prop :=
  map_Forall (λ _ code, is_fragment 7 code)
    (Translator.comp c_instruction_map)
  ∧ map_Forall (λ _ code, is_fragment 3 code)
      (Translator.dest c_instruction_map)
  ∧ map_Forall (λ _ code, is_fragment 3 code)
      (Translator.jmp c_instruction_map).

(** The word of a C-instruction from the three fragments. *)
Definition c_word (c d j : string) : string :=
  String "1" (String "1" (String "1" (c ++ d ++ j))).

(** The address an A-instruction line names, before the range check of
    [_convert_a_instruction], and the translator once it is resolved: the
    integer literal, or what [_allocate_address_if_needed] returns for the
    name. *)
Definition resolve (code_piece : string) (self : Translator.translator)
    : Z * Translator.translator :=
  match PyStr.int (PyStr.drop_first code_piece) with
  | Some address => (address, self)
  | None =>
      Translator._allocate_address_if_needed (PyStr.drop_first code_piece) self
  end.


(** The names the label lines of a source define, in order. *)
Definition label_names (infile : list string) : list string :=
  omap (λ line,
          let line_part := Reader.line_part line in
          if (PyStr.len line_part >? 0)%Z && PyStr.startswith "(" line_part
          then Some (PyStr.slice_1_m1 line_part) else None) infile.

(** The number a string of binary digits denotes, [acc] being the value of
    the digits already read; a character other than 1 counts as 0. *)
Fixpoint binary_value_from (acc : Z) (s : string) : Z :=
  match s with
  | EmptyString => acc
  | String c s' =>
      binary_value_from
        (2 * acc + (if Ascii.eqb c "1" then 1 else 0))%Z s'
  end.

Definition binary_value (s : string) : Z := binary_value_from 0 s.

(** [s] with every white-space character removed. *)
Fixpoint without_spaces (s : string) : string :=
  match s with
  | EmptyString => EmptyString
  | String c s' =>
      if PyStr.is_space c then without_spaces s'
      else String c (without_spaces s')
  end.

(** The entries of a table: keys without white space around them, codes
    without any white space. *)
Definition entries_clean (cmap : Translator.c_map) : Prop :=
  ∀ key code : string,
    Translator.comp cmap !! key = Some code
    ∨ Translator.dest cmap !! key = Some code
    ∨ Translator.jmp cmap !! key = Some code →
    PyStr.strip key = key ∧ without_spaces code = code.

(** ** Strings *)

Section StringFacts.

Lemma string_app_cons (c : ascii) (s t : string) :
  String c s ++ t = String c (s ++ t).
Proof. reflexivity. Qed.

Lemma string_app_nil_r (s : string) : s ++ "" = s.
Proof.
  induction s as [|c s IH]; [reflexivity|]. by rewrite string_app_cons, IH.
Qed.

Lemma string_app_assoc (s t u : string) : (s ++ t) ++ u = s ++ (t ++ u).
Proof.
  induction s as [|c s IH]; [reflexivity|]. by rewrite !string_app_cons, IH.
Qed.

Lemma string_length_app (s t : string) :
  String.length (s ++ t) = (String.length s + String.length t)%nat.
Proof.
  induction s as [|c s IH]; [reflexivity|].
  rewrite string_app_cons. cbn [String.length]. by rewrite IH.
Qed.

Lemma list_ascii_app (s t : string) :
  list_ascii_of_string (s ++ t)
  = (list_ascii_of_string s ++ list_ascii_of_string t)%list.
Proof.
  induction s as [|c s IH]; [reflexivity|].
  rewrite string_app_cons. cbn [list_ascii_of_string]. by rewrite IH.
Qed.

Lemma is_fragment_app (n m : nat) (s t : string) :
  is_fragment n s → is_fragment m t → is_fragment (n + m) (s ++ t).
Proof.
  intros [Hn Hs] [Hm Ht]. split.
  - rewrite string_length_app. congruence.
  - rewrite list_ascii_app, forallb_app, Hs, Ht. reflexivity.
Qed.

Lemma is_word16_fragment (w : string) : is_word16 w ↔ is_fragment 16 w.
Proof. reflexivity. Qed.

End StringFacts.

(** ** Binary formatting: [f"{n:b}"] padded with zeros is [bits] *)

Section Binary.

Lemma length_bits (w : nat) (n : Z) : String.length (bits w n) = w.
Proof. induction w as [|w IH]; [reflexivity|]. cbn [bits String.length]. by rewrite IH. Qed.

Lemma is_fragment_bits (w : nat) (n : Z) : is_fragment w (bits w n).
Proof.
  split; [apply length_bits|].
  induction w as [|w IH]; [reflexivity|].
  cbn [bits list_ascii_of_string forallb]. rewrite IH.
  by destruct (Z.testbit n (Z.of_nat w)).
Qed.

Lemma repeat_char_succ (k : nat) (c : ascii) :
  PyStr.repeat_char (Z.of_nat (S k)) c = String c (PyStr.repeat_char (Z.of_nat k) c).
Proof. unfold PyStr.repeat_char. rewrite !Nat2Z.id. reflexivity. Qed.

Lemma repeat_char_snoc (k : nat) (c : ascii) :
  PyStr.repeat_char (Z.of_nat (S k)) c
  = PyStr.repeat_char (Z.of_nat k) c ++ String c "".
Proof.
  induction k as [|k IH]; [reflexivity|].
  rewrite repeat_char_succ, IH at 1. rewrite (repeat_char_succ k). reflexivity.
Qed.

Lemma bits_zero (w : nat) : bits w 0 = PyStr.repeat_char (Z.of_nat w) "0".
Proof.
  induction w as [|w IH]; [reflexivity|].
  rewrite repeat_char_succ. cbn [bits]. rewrite Z.testbit_0_l. by rewrite IH.
Qed.

(** The last character of [bits] is the parity; the others are the bits of
    the half. *)
Lemma bits_snoc (w : nat) (n : Z) :
  bits (S w) n
  = bits w (Z.div2 n) ++ String (if Z.odd n then "1" else "0")%char "".
Proof.
  induction w as [|w IH].
  - cbn [bits]. change (Z.of_nat 0) with 0%Z. by rewrite Z.bit0_odd.
  - change (bits (S (S w)) n)
      with (String (if Z.testbit n (Z.of_nat (S w)) then "1" else "0")%char
              (bits (S w) n)).
    rewrite IH. cbn [bits]. rewrite string_app_cons.
    rewrite Nat2Z.inj_succ, Z.div2_div, Z.div2_bits by lia. reflexivity.
Qed.

Lemma bin_pos_acc (p : positive) (acc : string) :
  PyStr.bin_pos p acc = PyStr.bin_pos p "" ++ acc.
Proof.
  revert acc. induction p as [p IH|p IH|]; intros acc; cbn [PyStr.bin_pos].
  - rewrite (IH (String "1" acc)), (IH "1"), string_app_assoc. reflexivity.
  - rewrite (IH (String "0" acc)), (IH "0"), string_app_assoc. reflexivity.
  - reflexivity.
Qed.

Lemma length_bin_pos (p : positive) :
  String.length (PyStr.bin_pos p "") = Pos.size_nat p.
Proof.
  induction p as [p IH|p IH|]; cbn [PyStr.bin_pos Pos.size_nat];
    [| |reflexivity];
    rewrite bin_pos_acc, string_length_app, IH; cbn [String.length]; lia.
Qed.

Lemma bin_pos_padded (p : positive) (w : nat) :
  (Pos.size_nat p ≤ w)%nat →
  PyStr.repeat_char (Z.of_nat w - PyStr.len (PyStr.bin_pos p "")) "0"
    ++ PyStr.bin_pos p ""
  = bits w (Zpos p).
Proof.
  unfold PyStr.len. rewrite length_bin_pos.
  revert w. induction p as [p IH|p IH|]; intros w Hw;
    cbn [Pos.size_nat] in Hw; (destruct w as [|w]; [lia|]);
    rewrite bits_snoc; cbn [Pos.size_nat PyStr.bin_pos Z.div2 Z.odd Pos.div2].
  - rewrite bin_pos_acc, <- string_app_assoc. f_equal.
    rewrite <- (IH w) by lia. do 2 f_equal. lia.
  - rewrite bin_pos_acc, <- string_app_assoc. f_equal.
    rewrite <- (IH w) by lia. do 2 f_equal. lia.
  - rewrite bits_zero. f_equal. f_equal. lia.
Qed.

Lemma size_nat_bound (p : positive) (w : nat) :
  (Zpos p < 2 ^ Z.of_nat w)%Z → (Pos.size_nat p ≤ w)%nat.
Proof.
  revert w. induction p as [p IH|p IH|]; intros w Hw; cbn [Pos.size_nat].
  - destruct w as [|w]; [change (2 ^ Z.of_nat 0)%Z with 1%Z in Hw; lia|].
    rewrite Nat2Z.inj_succ, Z.pow_succ_r in Hw by lia.
    apply le_n_S, IH. lia.
  - destruct w as [|w]; [change (2 ^ Z.of_nat 0)%Z with 1%Z in Hw; lia|].
    rewrite Nat2Z.inj_succ, Z.pow_succ_r in Hw by lia.
    apply le_n_S, IH. lia.
  - destruct w as [|w]; [change (2 ^ Z.of_nat 0)%Z with 1%Z in Hw; lia|]. lia.
Qed.

(** The address field of an A-instruction, as the source builds it. *)
Lemma format_b_padded (n : Z) :
  (0 ≤ n ≤ Translator.A_SIZE)%Z →
  PyStr.repeat_char
    (Translator.A_INSTRUCTION_LENGTH - PyStr.len (PyStr.format_b n)) "0"
    ++ PyStr.format_b n
  = bits 15 n.
Proof.
  intros [Hlo Hhi]. destruct n as [|p|p]; [reflexivity| |lia].
  apply (bin_pos_padded p 15), size_nat_bound.
  unfold Translator.A_SIZE in Hhi. change (Z.of_nat 15) with 15%Z. lia.
Qed.

End Binary.

(** ** Integer literals *)

Section Literals.

Lemma digit_value_range (c : ascii) :
  PyStr.is_digit c = true → (0 ≤ PyStr.digit_value c ≤ 9)%Z.
Proof.
  unfold PyStr.is_digit, PyStr.digit_value. intros Hc.
  apply andb_true_iff in Hc as [Hlo Hhi].
  apply Nat.leb_le in Hlo, Hhi. lia.
Qed.

Lemma int_digits_bound (s : string) (acc digits : Z) (prev : bool) (n : Z) :
  (0 ≤ digits)%Z → (0 ≤ acc < 10 ^ digits)%Z →
  PyStr.int_digits s acc digits prev = Some n →
  (0 ≤ n < 10 ^ PyStr.int_max_str_digits)%Z.
Proof.
  assert (Hend : ∀ acc digits : Z,
            (0 ≤ digits)%Z → (0 ≤ acc < 10 ^ digits)%Z →
            (digits <=? PyStr.int_max_str_digits)%Z = true →
            (0 ≤ acc < 10 ^ PyStr.int_max_str_digits)%Z).
  { intros a d Hd Ha Hcap%Z.leb_le. split; [lia|].
    apply Z.lt_le_trans with (10 ^ d)%Z; [lia|].
    by apply Z.pow_le_mono_r. }
  revert acc digits prev.
  induction s as [|c s IH]; intros acc digits prev Hdigits Hacc;
    cbn [PyStr.int_digits].
  - destruct prev; [|discriminate]. cbn [andb].
    destruct (digits <=? PyStr.int_max_str_digits)%Z eqn:Hcap; [|discriminate].
    intros [= <-]. by apply (Hend acc digits).
  - destruct (PyStr.is_digit c) eqn:Hc.
    + apply IH; [lia|]. pose proof (digit_value_range c Hc) as Hvalue.
      rewrite Z.pow_add_r by lia. change (10 ^ 1)%Z with 10%Z. lia.
    + destruct (Ascii.eqb c "_").
      { destruct prev; [by apply IH|discriminate]. }
      destruct prev; [|discriminate]. cbn [andb].
      destruct (PyStr.only_int_space (String c s)); [|discriminate].
      cbn [andb].
      destruct (digits <=? PyStr.int_max_str_digits)%Z eqn:Hcap;
        [|discriminate].
      intros [= <-]. by apply (Hend acc digits).
Qed.

(** A literal [int] accepts has at most [int_max_str_digits] digits: the
    conversion of its value back to text, in [_convert_a_instruction], stays
    within the cap. *)
Lemma int_below_cap (s : string) (n : Z) :
  PyStr.int s = Some n → (Z.abs n < 10 ^ PyStr.int_max_str_digits)%Z.
Proof.
  assert (Hdigits : ∀ d m, PyStr.int_digits d 0 0 false = Some m →
                           (0 ≤ m < 10 ^ PyStr.int_max_str_digits)%Z).
  { intros d m. apply int_digits_bound; [lia|].
    change (10 ^ 0)%Z with 1%Z. lia. }
  unfold PyStr.int.
  destruct (PyStr.skip_int_space s) as [|c d]; [discriminate|].
  destruct (Ascii.eqb c "+"); [intros ?%Hdigits; lia|].
  destruct (Ascii.eqb c "-"); [|intros ?%Hdigits; lia].
  destruct (PyStr.int_digits d 0 0 false) as [m|] eqn:Hm; [|discriminate].
  intros [= <-]. apply Hdigits in Hm. lia.
Qed.

Lemma ascii_eqb_code (c d : ascii) :
  nat_of_ascii c ≠ nat_of_ascii d → Ascii.eqb c d = false.
Proof. intros Hne. apply Ascii.eqb_neq. congruence. Qed.

(** The separators 0x1c..0x1f are white space to [strip] and none to [int]:
    in front of the digits they make a text that is no literal. *)
Lemma int_separator (c : ascii) (s : string) :
  (28 ≤ nat_of_ascii c ≤ 31)%nat →
  PyStr.is_space c = true ∧ PyStr.int (String c s) = None.
Proof.
  intros Hc. split.
  - unfold PyStr.is_space. cbv zeta.
    replace (28 <=? nat_of_ascii c)%nat with true
      by (symmetry; apply Nat.leb_le; lia).
    replace (nat_of_ascii c <=? 32)%nat with true
      by (symmetry; apply Nat.leb_le; lia).
    cbn [andb]. by rewrite orb_true_r.
  - assert (Hspace : PyStr.is_int_space c = false).
    { unfold PyStr.is_int_space. cbv zeta.
      replace (nat_of_ascii c <=? 13)%nat with false
        by (symmetry; apply Nat.leb_gt; lia).
      replace (nat_of_ascii c =? 32)%nat with false
        by (symmetry; apply Nat.eqb_neq; lia).
      replace (nat_of_ascii c =? 133)%nat with false
        by (symmetry; apply Nat.eqb_neq; lia).
      replace (nat_of_ascii c =? 160)%nat with false
        by (symmetry; apply Nat.eqb_neq; lia).
      by rewrite andb_false_r. }
    assert (Hdigit : PyStr.is_digit c = false).
    { unfold PyStr.is_digit. cbv zeta.
      replace (48 <=? nat_of_ascii c)%nat with false
        by (symmetry; apply Nat.leb_gt; lia).
      done. }
    unfold PyStr.int. cbn [PyStr.skip_int_space]. rewrite Hspace.
    rewrite !ascii_eqb_code
      by (change (nat_of_ascii "+") with 43%nat;
          change (nat_of_ascii "-") with 45%nat; lia).
    cbn [PyStr.int_digits]. rewrite Hdigit.
    rewrite ascii_eqb_code by (change (nat_of_ascii "_") with 95%nat; lia).
    reflexivity.
Qed.

End Literals.

(** ** A-instructions *)

Section AInstruction.

Implicit Types (self : Translator.translator) (address : Z).

(** An address within the 15 bits is written out directly. *)
Lemma convert_in_range address self :
  (0 ≤ address ≤ Translator.A_SIZE)%Z →
  Translator._convert_a_instruction address self
  = Ok (String "0" (bits 15 address)).
Proof.
  intros Hrange. unfold Translator._convert_a_instruction.
  replace (address >? Translator.A_SIZE)%Z with false by (symmetry; lia).
  cbn [Translator._handle_bad_address is_False mbind result_bind].
  unfold mbind, result_bind. f_equal.
  rewrite format_b_padded by done. reflexivity.
Qed.

(** An address beyond the 15 bits is replaced by what the symbol table binds
    to its decimal text, and that value is written out as it is. *)
Lemma convert_over_range address self :
  (Translator.A_SIZE < address)%Z →
  Translator._convert_a_instruction address self
  = match Translator.symbol_table self !! PyStr.str address with
    | None => Raise (SystemExit 3)
    | Some v =>
        Ok (String "0"
              (PyStr.repeat_char (15 - PyStr.len (PyStr.format_b v)) "0"
               ++ PyStr.format_b v))
    end.
Proof.
  intros Hrange. unfold Translator._convert_a_instruction.
  replace (address >? Translator.A_SIZE)%Z with true by (symmetry; lia).
  unfold SymbolTable.get_value.
  destruct (Translator.symbol_table self !! PyStr.str address); reflexivity.
Qed.

(** A literal changes neither the symbol table nor the counter. *)
Lemma process_a_literal (address_key : string) (c : ascii) address self :
  PyStr.int address_key = Some address →
  Translator.process_a_instruction (String c address_key) self
  = (instr ← Translator._convert_a_instruction address self; Ok (instr, self)).
Proof.
  intros Hint. unfold Translator.process_a_instruction.
  cbn [PyStr.drop_first]. by rewrite Hint.
Qed.

(** A name goes through [_allocate_address_if_needed] first. *)
Lemma process_a_symbol (address_key : string) (c : ascii) self :
  PyStr.int address_key = None →
  Translator.process_a_instruction (String c address_key) self
  = (let '(address, self') :=
       Translator._allocate_address_if_needed address_key self in
     instr ← Translator._convert_a_instruction address self';
     Ok (instr, self')).
Proof.
  intros Hint. unfold Translator.process_a_instruction.
  cbn [PyStr.drop_first]. by rewrite Hint.
Qed.

(** C2. An A-instruction whose value parses as a non-negative integer: up
    to 2^15 - 1 (32767 included) the literal itself is the encoded address;
    beyond, the decimal text of the literal is looked up in the symbol table
    and the translation of the line fails, with [sys.exit(3)], exactly when
    the text is not bound. *)
Theorem C2_literal_address (address_key : string) (n : Z) self :
  PyStr.int address_key = Some n →
  (0 ≤ n)%Z →
  Translator.process_a_instruction (String "@" address_key) self
  = (if (n <=? 2 ^ 15 - 1)%Z then Ok (String "0" (bits 15 n), self)
     else match Translator.symbol_table self !! PyStr.str n with
          | None => Raise (SystemExit 3)
          | Some v =>
              Ok (String "0"
                    (PyStr.repeat_char (15 - PyStr.len (PyStr.format_b v)) "0"
                     ++ PyStr.format_b v), self)
          end)
  ∧ ((2 ^ 15 - 1 < n)%Z →
     ((∃ e, Translator.process_a_instruction (String "@" address_key) self
            = Raise e)
      ↔ Translator.symbol_table self !! PyStr.str n = None)).
Proof.
  intros Hint Hpos. rewrite (process_a_literal _ _ _ _ Hint).
  destruct (Z.leb_spec n (2 ^ 15 - 1)) as [Hle|Hgt].
  - split; [|lia]. by rewrite convert_in_range.
  - rewrite convert_over_range by done.
    destruct (Translator.symbol_table self !! PyStr.str n) as [v|];
      (split; [reflexivity|]); intros _; split;
      [intros [e He]; discriminate He | discriminate | done | eauto].
Qed.

Lemma C2_literal_address_witness :
  PyStr.int "32767" = Some 32767%Z ∧ (0 ≤ 32767)%Z
  ∧ Translator.process_a_instruction "@32767"
      (Translator.init SymbolTable._get_defaults)
    = Ok ("0111111111111111", Translator.init SymbolTable._get_defaults).
Proof.
  split; [reflexivity|]. split; [lia|].
  apply (C2_literal_address "32767" 32767
           (Translator.init SymbolTable._get_defaults)); [reflexivity | lia].
Defined.

(** C8. [@0] is encoded as sixteen zeros, whatever the state of the
    translator and the mnemonic table; [@SCREEN] under the default symbol
    table is encoded as 0100000000000000, the table being left as it was. *)
Theorem C8_encode_zero_and_screen :
  (∀ (c_instruction_map : Translator.c_map) self,
     Translator.encode c_instruction_map "@0" self
     = Ok ("0000000000000000", self))
  ∧ (∀ c_instruction_map : Translator.c_map,
       Translator.encode c_instruction_map "@SCREEN"
         (Translator.init SymbolTable._get_defaults)
       = Ok ("0100000000000000", Translator.init SymbolTable._get_defaults))
  ∧ SymbolTable.get_value "SCREEN" SymbolTable._get_defaults = PyInt 16384.
Proof.
  split; [|split].
  - intros c_instruction_map self. reflexivity.
  - intros c_instruction_map. vm_compute. reflexivity.
  - reflexivity.
Qed.

End AInstruction.

(** ** Symbols and variable allocation *)

Section Allocation.

Implicit Types (self : Translator.translator) (table : gmap string Z).

(** A bound name is returned as it is, whatever its value, 0 included. *)
Lemma allocate_bound (address_key : string) (address : Z) self :
  Translator.symbol_table self !! address_key = Some address →
  Translator._allocate_address_if_needed address_key self = (address, self).
Proof.
  intros Hbound.
  unfold Translator._allocate_address_if_needed, SymbolTable.get_value.
  by rewrite Hbound.
Qed.

(** An unbound name takes the next free address. *)
Lemma allocate_unbound (address_key : string) self :
  Translator.symbol_table self !! address_key = None →
  Translator._allocate_address_if_needed address_key self
  = (Translator.next_free_mem self,
     Translator.Translator (Translator.next_free_mem self + 1)
       (<[address_key := Translator.next_free_mem self]>
          (Translator.symbol_table self))).
Proof.
  intros Hfree.
  unfold Translator._allocate_address_if_needed, SymbolTable.get_value.
  by rewrite Hfree.
Qed.

(** C10. An A-instruction naming a symbol stored with address 0 (such as
    [@SP] under the default bindings) is encoded as address 0 and allocates
    nothing: symbol table and next free address are unchanged. *)
Theorem C10_zero_valued_symbol_not_reallocated (name : string) self :
  PyStr.int name = None →
  Translator.symbol_table self !! name = Some 0%Z →
  Translator._allocate_address_if_needed name self = (0%Z, self)
  ∧ Translator.process_a_instruction (String "@" name) self
    = Ok ("0000000000000000", self).
Proof.
  intros Hname Hzero. split; [by apply allocate_bound|].
  rewrite process_a_symbol by done.
  rewrite (allocate_bound _ _ _ Hzero). reflexivity.
Qed.

Lemma C10_zero_valued_symbol_not_reallocated_witness :
  PyStr.int "SP" = None
  ∧ SymbolTable._get_defaults !! "SP" = Some 0%Z
  ∧ Translator._allocate_address_if_needed "SP"
      (Translator.init SymbolTable._get_defaults)
    = (0%Z, Translator.init SymbolTable._get_defaults)
  ∧ Translator.process_a_instruction "@SP"
      (Translator.init SymbolTable._get_defaults)
    = Ok ("0000000000000000", Translator.init SymbolTable._get_defaults).
Proof.
  split; [reflexivity|]. split; [reflexivity|].
  apply (C10_zero_valued_symbol_not_reallocated "SP"
           (Translator.init SymbolTable._get_defaults)); reflexivity.
Defined.

End Allocation.

Section AllocationOrder.

Implicit Types (self : Translator.translator) (table : gmap string Z).
Implicit Types (keys : list string).

Lemma filter_first_occurrences (P : string → Prop) `{!∀ x, Decision (P x)}
    (l : list string) :
  filter P (first_occurrences l) = first_occurrences (filter P l).
Proof.
  induction l as [|x l IH]; [reflexivity|].
  cbn [first_occurrences]. rewrite !filter_cons.
  destruct (decide (P x)) as [HP|HP].
  - cbn [first_occurrences]. f_equal. rewrite <- IH.
    rewrite !list_filter_filter. apply list_filter_iff. tauto.
  - rewrite <- IH, list_filter_filter. apply list_filter_iff.
    intros y. split; [tauto|]. intros HPy. split; [done|]. congruence.
Qed.

Lemma new_names_bound table (k : string) keys :
  is_Some (table !! k) → new_names table (k :: keys) = new_names table keys.
Proof.
  intros [v Hv]. unfold new_names. rewrite filter_cons.
  destruct (decide (table !! k = None)); [congruence|reflexivity].
Qed.

Lemma new_names_unbound table (k : string) (v : Z) keys :
  table !! k = None →
  new_names table (k :: keys) = k :: new_names (<[k := v]> table) keys.
Proof.
  intros Hk. unfold new_names. rewrite filter_cons.
  destruct (decide (table !! k = None)); [|done].
  cbn [first_occurrences]. f_equal. rewrite filter_first_occurrences.
  f_equal. rewrite list_filter_filter. apply list_filter_iff.
  intros y. rewrite lookup_insert_None. intuition congruence.
Qed.

(** Allocation never rebinds a name. *)
Lemma allocate_preserves (address_key : string) self (k : string) (v : Z) :
  Translator.symbol_table self !! k = Some v →
  Translator.symbol_table
    (Translator._allocate_address_if_needed address_key self).2 !! k = Some v.
Proof.
  intros Hk.
  destruct (Translator.symbol_table self !! address_key) as [a|] eqn:Hkey.
  - by rewrite (allocate_bound _ _ _ Hkey).
  - rewrite (allocate_unbound _ _ Hkey). cbn.
    rewrite lookup_insert_ne; [done|congruence].
Qed.

(** The address returned for a name is the one the table binds afterwards. *)
Lemma allocate_binds (address_key : string) self :
  Translator.symbol_table
    (Translator._allocate_address_if_needed address_key self).2 !! address_key
  = Some (Translator._allocate_address_if_needed address_key self).1.
Proof.
  destruct (Translator.symbol_table self !! address_key) as [a|] eqn:Hkey.
  - by rewrite (allocate_bound _ _ _ Hkey).
  - rewrite (allocate_unbound _ _ Hkey). cbn. apply lookup_insert_eq.
Qed.

Lemma allocate_all_cons (address_key : string) keys self :
  allocate_all (address_key :: keys) self
  = ((Translator._allocate_address_if_needed address_key self).1
       :: (allocate_all keys
             (Translator._allocate_address_if_needed address_key self).2).1,
     (allocate_all keys
        (Translator._allocate_address_if_needed address_key self).2).2).
Proof.
  cbn [allocate_all].
  destruct (Translator._allocate_address_if_needed address_key self) as [a s1].
  cbn [fst snd]. by destruct (allocate_all keys s1).
Qed.

Lemma allocate_all_preserves keys self (k : string) (v : Z) :
  Translator.symbol_table self !! k = Some v →
  Translator.symbol_table (allocate_all keys self).2 !! k = Some v.
Proof.
  revert self. induction keys as [|k0 keys IH]; intros self Hk; [done|].
  rewrite allocate_all_cons. cbn [snd]. by apply IH, allocate_preserves.
Qed.

(** Every reference returns the address the name is bound to at the end. *)
Lemma allocate_all_returns keys self (i : nat) (k : string) :
  keys !! i = Some k →
  (allocate_all keys self).1 !! i
  = Translator.symbol_table (allocate_all keys self).2 !! k.
Proof.
  revert self i. induction keys as [|k0 keys IH]; intros self i Hi; [done|].
  rewrite allocate_all_cons. cbn [fst snd]. destruct i as [|i].
  - injection Hi as ->. cbn [lookup list_lookup]. symmetry.
    apply allocate_all_preserves, allocate_binds.
  - by apply IH.
Qed.

(** The [j]-th new name gets the [j]-th address from the next free one. *)
Lemma allocate_all_new keys self (j : nat) (k : string) :
  new_names (Translator.symbol_table self) keys !! j = Some k →
  Translator.symbol_table (allocate_all keys self).2 !! k
  = Some (Translator.next_free_mem self + Z.of_nat j)%Z.
Proof.
  revert self j. induction keys as [|k0 keys IH]; intros self j Hj; [done|].
  rewrite allocate_all_cons. cbn [snd].
  destruct (Translator.symbol_table self !! k0) as [a|] eqn:Hkey.
  - rewrite new_names_bound in Hj by eauto.
    rewrite (allocate_bound _ _ _ Hkey). by apply IH.
  - rewrite (new_names_unbound _ _ (Translator.next_free_mem self)) in Hj
      by done.
    pose proof (allocate_binds k0 self) as Hbind.
    rewrite (allocate_unbound _ _ Hkey) in Hbind |- *. cbn [fst snd] in *.
    destruct j as [|j].
    + injection Hj as <-. rewrite Z.add_0_r.
      by apply allocate_all_preserves.
    + rewrite (IH _ j); [f_equal; cbn; lia | exact Hj].
Qed.

Lemma allocate_all_next_free keys self :
  Translator.next_free_mem (allocate_all keys self).2
  = (Translator.next_free_mem self
     + Z.of_nat (length (new_names (Translator.symbol_table self) keys)))%Z.
Proof.
  revert self. induction keys as [|k0 keys IH]; intros self.
  - cbn. lia.
  - rewrite allocate_all_cons. cbn [snd].
    destruct (Translator.symbol_table self !! k0) as [a|] eqn:Hkey.
    + rewrite new_names_bound by eauto.
      rewrite (allocate_bound _ _ _ Hkey). apply IH.
    + rewrite (new_names_unbound _ _ (Translator.next_free_mem self)) by done.
      rewrite (allocate_unbound _ _ Hkey), IH. cbn. lia.
Qed.

End AllocationOrder.

(** ** The encoding pass and its state *)

Section Pass.

Variable c_instruction_map : Translator.c_map.

Implicit Types (self : Translator.translator) (code outfile : list string).

Lemma translate_loop_acc code self outfile :
  Translator.translate_loop c_instruction_map code self outfile
  = ((outfile ++ (Translator.translate c_instruction_map code self).1)%list,
     (Translator.translate c_instruction_map code self).2).
Proof.
  unfold Translator.translate.
  revert self outfile. induction code as [|line code IH]; intros self outfile.
  - cbn. by rewrite app_nil_r.
  - cbn [Translator.translate_loop].
    destruct (Translator.encode c_instruction_map line self) as [[w s1]|e].
    + rewrite (IH s1 (outfile ++ [w])%list), (IH s1 ([] ++ [w])%list).
      cbn [fst snd]. by rewrite <- app_assoc.
    + cbn. by rewrite app_nil_r.
Qed.

(** One step of the pass, as an equation on [translate]. *)
Lemma translate_cons (line : string) code self :
  Translator.translate c_instruction_map (line :: code) self
  = match Translator.encode c_instruction_map line self with
    | Ok (instr, self') =>
        (instr :: (Translator.translate c_instruction_map code self').1,
         (Translator.translate c_instruction_map code self').2)
    | Raise e => ([], Raise e)
    end.
Proof.
  unfold Translator.translate at 1. cbn [Translator.translate_loop].
  destruct (Translator.encode c_instruction_map line self) as [[w s1]|e];
    [|reflexivity].
  by rewrite translate_loop_acc.
Qed.

(** The only thing a line does to the translator is the allocation of its
    symbol, if it names one. *)
Lemma encode_state (line instr : string) self self' :
  Translator.encode c_instruction_map line self = Ok (instr, self') →
  self' = (allocate_all (symbol_refs [line]) self).2.
Proof.
  unfold Translator.encode, Translator.process_a_instruction, symbol_refs.
  cbn [omap list_omap].
  destruct (PyStr.startswith "@" line).
  - destruct (PyStr.int (PyStr.drop_first line)) as [n|].
    + destruct (Translator._convert_a_instruction n self); cbn; congruence.
    + cbn [allocate_all].
      destruct (Translator._allocate_address_if_needed _ self) as [a s1].
      destruct (Translator._convert_a_instruction a s1); cbn; congruence.
  - destruct (Translator.process_c_instruction c_instruction_map line);
      cbn; congruence.
Qed.

Lemma allocate_all_app (keys1 keys2 : list string) self :
  (allocate_all (keys1 ++ keys2) self).2
  = (allocate_all keys2 (allocate_all keys1 self).2).2.
Proof.
  revert self. induction keys1 as [|k keys1 IH]; intros self; [done|].
  rewrite <- app_comm_cons, !allocate_all_cons. cbn [snd]. apply IH.
Qed.

(** A pass that ends normally leaves the translator as the sequence of its
    symbol references does. *)
Lemma translate_state code self outfile self' :
  Translator.translate c_instruction_map code self = (outfile, Ok self') →
  self' = (allocate_all (symbol_refs code) self).2.
Proof.
  revert self outfile.
  induction code as [|line code IH]; intros self outfile Hrun.
  - cbn in *. congruence.
  - rewrite translate_cons in Hrun.
    destruct (Translator.encode c_instruction_map line self)
      as [[w s1]|e] eqn:Hline; [|discriminate].
    apply encode_state in Hline.
    change (line :: code) with ([line] ++ code)%list.
    unfold symbol_refs in *. rewrite omap_app, allocate_all_app, <- Hline.
    apply (IH s1 (Translator.translate c_instruction_map code s1).1).
    destruct (Translator.translate c_instruction_map code s1) as [o r].
    cbn [fst snd] in *. congruence.
Qed.

End Pass.

(** C7. In the encoding pass of one file every reference to a name returns
    the same address, so a new variable looked up twice gets its allocated
    address both times; the new variables get the consecutive addresses 16,
    17, ... in the order of their first reference, and the free-address
    counter ends just after them. The references of a pass that completes
    are the symbolic A-instructions of its code, in order. *)
Theorem C7_variable_allocation (table : gmap string Z) (keys : list string) :
  let addresses := (allocate_all keys (Translator.init table)).1 in
  let final := (allocate_all keys (Translator.init table)).2 in
  (∀ c_instruction_map code outfile self',
     symbol_refs code = keys →
     Translator.translate c_instruction_map code (Translator.init table)
     = (outfile, Ok self') →
     self' = final)
  ∧ (∀ (i j : nat) (k : string),
       keys !! i = Some k → keys !! j = Some k →
       addresses !! i = addresses !! j)
  ∧ (∀ (j : nat) (k : string),
       new_names table keys !! j = Some k →
       Translator.symbol_table final !! k = Some (16 + Z.of_nat j)%Z
       ∧ ∀ i : nat, keys !! i = Some k →
                    addresses !! i = Some (16 + Z.of_nat j)%Z)
  ∧ Translator.next_free_mem final
    = (16 + Z.of_nat (length (new_names table keys)))%Z.
Proof.
  cbn zeta. repeat split.
  - intros c_instruction_map code outfile self' <- Hrun.
    by apply (translate_state c_instruction_map code _ outfile).
  - intros i j k Hi Hj.
    by rewrite (allocate_all_returns _ _ _ _ Hi),
      (allocate_all_returns _ _ _ _ Hj).
  - by apply (allocate_all_new keys (Translator.init table)).
  - intros i Hi. rewrite (allocate_all_returns _ _ _ _ Hi).
    by apply (allocate_all_new keys (Translator.init table)).
  - apply (allocate_all_next_free keys (Translator.init table)).
Qed.

Lemma C7_variable_allocation_witness :
  let code := ["@i"; "M=1"; "@sum"; "@i"; "@SP"; "@7"; "@sum"] in
  let keys := ["i"; "sum"; "i"; "SP"; "sum"] in
  symbol_refs code = keys
  ∧ new_names SymbolTable._get_defaults keys !! 1%nat = Some "sum"
  ∧ keys !! 1%nat = Some "sum" ∧ keys !! 4%nat = Some "sum"
  ∧ (allocate_all keys (Translator.init SymbolTable._get_defaults)).1 !! 1%nat
    = (allocate_all keys (Translator.init SymbolTable._get_defaults)).1 !! 4%nat
  ∧ (allocate_all keys (Translator.init SymbolTable._get_defaults)).1 !! 4%nat
    = Some 17%Z
  ∧ (Translator.translate hack_c_map code
       (Translator.init SymbolTable._get_defaults)).2
    = Ok (allocate_all keys (Translator.init SymbolTable._get_defaults)).2.
Proof.
  cbn zeta.
  pose proof (C7_variable_allocation SymbolTable._get_defaults
                ["i"; "sum"; "i"; "SP"; "sum"]) as (Hrun & Hsame & Hnew & _).
  split; [reflexivity|]. split; [reflexivity|].
  split; [reflexivity|]. split; [reflexivity|].
  split; [apply (Hsame 1%nat 4%nat "sum"); reflexivity|].
  split; [apply (Hnew 1%nat "sum"); reflexivity|].
  destruct (Translator.translate hack_c_map
              ["@i"; "M=1"; "@sum"; "@i"; "@SP"; "@7"; "@sum"]
              (Translator.init SymbolTable._get_defaults))
    as [outfile [self'|e]] eqn:Hpass.
  - cbn [snd]. f_equal.
    apply (Hrun hack_c_map
             ["@i"; "M=1"; "@sum"; "@i"; "@SP"; "@7"; "@sum"] outfile self');
      [reflexivity | exact Hpass].
  - vm_compute in Hpass. discriminate Hpass.
Defined.

(** ** The label resolver *)

Section Resolver.

Implicit Types (st : Reader.state) (line name : string).
Implicit Types (infile pre post : list string).

Lemma len_pos_nonempty (s : string) :
  (PyStr.len s >? 0)%Z = true → String.eqb s "" = false.
Proof. destruct s; [discriminate|reflexivity]. Qed.

(** A blank line changes nothing. *)
Lemma read_line_blank st line :
  (PyStr.len (Reader.line_part line) >? 0)%Z = false →
  Reader.read_line st line = st.
Proof. intros Hblank. unfold Reader.read_line. by rewrite Hblank. Qed.

(** An instruction line is appended and counted; the table is untouched. *)
Lemma read_line_instruction st line :
  (PyStr.len (Reader.line_part line) >? 0)%Z = true →
  PyStr.startswith "(" (Reader.line_part line) = false →
  Reader.read_line st line
  = Reader.State (Reader.program_code st ++ [Reader.line_part line])
      (Reader.line_counter st + 1) (Reader.symbol_table st).
Proof.
  intros Hlen Hstart. unfold Reader.read_line, Reader.check_if_label.
  by rewrite Hlen, Hstart, (len_pos_nonempty _ Hlen).
Qed.

(** A label line is neither appended nor counted; its name is bound to the
    next address unless the table holds a true value for it. *)
Lemma read_line_label st line :
  (PyStr.len (Reader.line_part line) >? 0)%Z = true →
  PyStr.startswith "(" (Reader.line_part line) = true →
  Reader.read_line st line
  = Reader.State (Reader.program_code st) (Reader.line_counter st)
      (if truthy (SymbolTable.get_value
                    (PyStr.slice_1_m1 (Reader.line_part line))
                    (Reader.symbol_table st))
       then Reader.symbol_table st
       else <[PyStr.slice_1_m1 (Reader.line_part line)
              := (Reader.line_counter st + 1)%Z]> (Reader.symbol_table st)).
Proof.
  intros Hlen Hstart. unfold Reader.read_line, Reader.check_if_label.
  rewrite Hlen, Hstart.
  by destruct (truthy _).
Qed.

(** The three kinds of lines. *)
Lemma line_cases line :
  (PyStr.len (Reader.line_part line) >? 0)%Z = false
  ∨ ((PyStr.len (Reader.line_part line) >? 0)%Z = true
     ∧ PyStr.startswith "(" (Reader.line_part line) = false)
  ∨ ((PyStr.len (Reader.line_part line) >? 0)%Z = true
     ∧ PyStr.startswith "(" (Reader.line_part line) = true).
Proof.
  destruct (PyStr.len (Reader.line_part line) >? 0)%Z; [|by left].
  destruct (PyStr.startswith "(" (Reader.line_part line)); auto.
Qed.

(** The instruction list of pass 1 holds the instruction lines, and the
    counter is the address of the last of them. *)
Lemma read_lines_code infile st :
  Reader.program_code (foldl Reader.read_line st infile)
  = (Reader.program_code st ++ instructions infile)%list
  ∧ Reader.line_counter (foldl Reader.read_line st infile)
    = (Reader.line_counter st + Z.of_nat (length (instructions infile)))%Z.
Proof.
  revert st. induction infile as [|line infile IH]; intros st.
  - cbn. rewrite app_nil_r. split; [done|lia].
  - cbn [foldl]. destruct (IH (Reader.read_line st line)) as [-> ->].
    unfold instructions. cbn [omap list_omap]. fold (instructions infile).
    destruct (line_cases line) as [Hb|[[Hl Hs]|[Hl Hs]]].
    + rewrite (read_line_blank _ _ Hb), Hb. done.
    + rewrite (read_line_instruction _ _ Hl Hs), Hl, Hs. cbn.
      rewrite <- app_assoc. split; [done|lia].
    + rewrite (read_line_label _ _ Hl Hs), Hl, Hs. done.
Qed.

Lemma read_source_code infile :
  (Reader.read_source infile).1 = instructions infile.
Proof. unfold Reader.read_source. cbn [fst]. by rewrite (proj1 (read_lines_code _ _)). Qed.

(** A binding to a non-zero address survives every line. *)
Lemma read_line_keeps_nonzero st line name (v : Z) :
  Reader.symbol_table st !! name = Some v → v ≠ 0%Z →
  Reader.symbol_table (Reader.read_line st line) !! name = Some v.
Proof.
  intros Hname Hv.
  destruct (line_cases line) as [Hb|[[Hl Hs]|[Hl Hs]]].
  - by rewrite (read_line_blank _ _ Hb).
  - by rewrite (read_line_instruction _ _ Hl Hs).
  - rewrite (read_line_label _ _ Hl Hs). cbn [Reader.symbol_table].
    destruct (truthy _) eqn:Htruthy; [done|].
    destruct (decide (PyStr.slice_1_m1 (Reader.line_part line) = name))
      as [Heq|Hne]; [|by rewrite lookup_insert_ne].
    rewrite Heq in Htruthy. unfold SymbolTable.get_value in Htruthy.
    rewrite Hname in Htruthy. cbn in Htruthy.
    apply negb_false_iff, Z.eqb_eq in Htruthy. done.
Qed.

Lemma read_lines_keep_nonzero infile st name (v : Z) :
  Reader.symbol_table st !! name = Some v → v ≠ 0%Z →
  Reader.symbol_table (foldl Reader.read_line st infile) !! name = Some v.
Proof.
  revert st. induction infile as [|line infile IH]; intros st Hname Hv;
    [done|].
  cbn [foldl]. apply IH; [by apply read_line_keeps_nonzero | done].
Qed.



End Resolver.

Section Labels.

Implicit Types (line name : string) (pre post : list string).




(** C1. The resolver tests the truth value of the lookup, so a name bound
    to 0 counts as unbound: the label line [(SP)] after one instruction
    rebinds the predefined SP from 0 to 1, and a label first bound to 0 is
    rebound by a second definition. (Names bound to a non-zero address are
    kept, see [read_lines_keep_nonzero].) *)
Theorem C1_zero_valued_binding_is_rebound :
  SymbolTable._get_defaults !! "SP" = Some 0%Z
  ∧ Reader.check_if_label "(SP)" 0 SymbolTable._get_defaults
    = (None, <["SP" := 1%Z]> SymbolTable._get_defaults)
  ∧ (Reader.read_source ["@0"; "(SP)"]).2 !! "SP" = Some 1%Z
  ∧ (Reader.read_source ["(LOOP)"; "@0"]).2 !! "LOOP" = Some 0%Z
  ∧ (Reader.read_source ["(LOOP)"; "@0"; "(LOOP)"]).2 !! "LOOP" = Some 1%Z.
Proof. repeat split; reflexivity. Qed.

End Labels.

(** ** C-instructions *)

Section CInstruction.

Variable c_instruction_map : Translator.c_map.

Implicit Types (line instr : string).

(** [_convert_c_instruction] succeeds exactly when the three mnemonics are
    in their tables, and then concatenates 111 and the three fragments. *)
Lemma convert_c_ok (comp_v dest_v jmp_v instr : string) :
  Translator._convert_c_instruction c_instruction_map comp_v dest_v jmp_v
  = Ok instr
  ↔ ∃ c d j,
      Translator.comp c_instruction_map !! comp_v = Some c
      ∧ Translator.dest c_instruction_map !! dest_v = Some d
      ∧ Translator.jmp c_instruction_map !! jmp_v = Some j
      ∧ instr = c_word c d j.
Proof.
  unfold Translator._convert_c_instruction, Translator.lookup_field, c_word.
  destruct (Translator.comp c_instruction_map !! comp_v) as [c|];
    [|split; [discriminate | intros (?&?&?&?&_); discriminate]].
  destruct (Translator.dest c_instruction_map !! dest_v) as [d|];
    [|split; [discriminate | intros (?&?&?&_&?&_); discriminate]].
  destruct (Translator.jmp c_instruction_map !! jmp_v) as [j|];
    [|split; [discriminate | intros (?&?&?&_&_&?&_); discriminate]].
  cbn [mbind result_bind].
  change (PyStr.str Translator.C_OP_CODE ++ PyStr.str Translator.C_FILLER)
    with "111".
  rewrite !string_app_assoc. change ("111" ++ c ++ d ++ j)
    with (String "1" (String "1" (String "1" (c ++ d ++ j)))).
  split.
  - intros [= <-]. by exists c, d, j.
  - intros (c' & d' & j' & [= <-] & [= <-] & [= <-] & ->). reflexivity.
Qed.


Lemma process_c_dest_form line :
  PyStr.contains "=" line = true →
  Translator.process_c_instruction c_instruction_map line
  = Translator._convert_c_instruction c_instruction_map
      (Translator.item (PyStr.split "=" line) 1)
      (Translator.item (PyStr.split "=" line) 0) "null".
Proof. intros Heq. unfold Translator.process_c_instruction. by rewrite Heq. Qed.

Lemma process_c_jump_form line :
  PyStr.contains "=" line = false →
  PyStr.contains ";" line = true →
  Translator.process_c_instruction c_instruction_map line
  = Translator._convert_c_instruction c_instruction_map
      (Translator.item (PyStr.split ";" line) 0) "null"
      (Translator.item (PyStr.split ";" line) 1).
Proof.
  intros Heq Hsemi. unfold Translator.process_c_instruction.
  by rewrite Heq, Hsemi.
Qed.

(** C9. The word emitted for a C-instruction line containing [=] (form
    dest=comp) is 111, hence begins with 11, followed by the fragments of
    the computation, of the destination and, as jump field, of [null]; the
    word emitted for a line of the form comp;jmp (a [;] and no [=]) has the
    fragment of [null] as destination field. In both forms the word is
    emitted exactly when the three mnemonics are in their tables. *)
Theorem C9_c_instruction_fields line instr :
  (PyStr.contains "=" line = true →
   (Translator.process_c_instruction c_instruction_map line = Ok instr
    ↔ ∃ c d j,
        Translator.comp c_instruction_map
          !! Translator.item (PyStr.split "=" line) 1 = Some c
        ∧ Translator.dest c_instruction_map
            !! Translator.item (PyStr.split "=" line) 0 = Some d
        ∧ Translator.jmp c_instruction_map !! "null" = Some j
        ∧ instr = String "1" (String "1" (String "1" (c ++ d ++ j)))))
  ∧ (PyStr.contains "=" line = false → PyStr.contains ";" line = true →
     (Translator.process_c_instruction c_instruction_map line = Ok instr
      ↔ ∃ c d j,
          Translator.comp c_instruction_map
            !! Translator.item (PyStr.split ";" line) 0 = Some c
          ∧ Translator.dest c_instruction_map !! "null" = Some d
          ∧ Translator.jmp c_instruction_map
              !! Translator.item (PyStr.split ";" line) 1 = Some j
          ∧ instr = String "1" (String "1" (String "1" (c ++ d ++ j))))).
Proof.
  split.
  - intros Heq. rewrite (process_c_dest_form _ Heq). apply convert_c_ok.
  - intros Heq Hsemi. rewrite (process_c_jump_form _ Heq Hsemi).
    apply convert_c_ok.
Qed.

(** With fragments of 7, 3 and 3 bits the word has 16. *)
Lemma c_word_is_word16 (c d j : string) :
  is_fragment 7 c → is_fragment 3 d → is_fragment 3 j →
  is_word16 (c_word c d j).
Proof.
  intros Hc Hd Hj. apply is_word16_fragment.
  change (c_word c d j) with ("111" ++ c ++ d ++ j).
  apply (is_fragment_app 3 13); [done|].
  apply (is_fragment_app 7 6); [done|].
  by apply (is_fragment_app 3 3).
Qed.

Lemma process_c_is_word16 line instr :
  c_map_wf c_instruction_map →
  Translator.process_c_instruction c_instruction_map line = Ok instr →
  is_word16 instr.
Proof.
  intros (Hcomp & Hdest & Hjmp). unfold Translator.process_c_instruction.
  destruct (PyStr.contains "=" line);
    [|destruct (PyStr.contains ";" line); [|discriminate]];
    intros (c & d & j & Hc & Hd & Hj & ->)%convert_c_ok;
    apply c_word_is_word16; eauto.
Qed.


End CInstruction.

Lemma hack_c_map_wf : c_map_wf hack_c_map.
Proof.
  split; [|split]; refine (bool_decide_unpack _ _); vm_compute; exact I.
Qed.

Lemma C9_c_instruction_fields_witness :
  PyStr.contains "=" "D=D+A" = true
  ∧ PyStr.contains "=" "D;JGT" = false ∧ PyStr.contains ";" "D;JGT" = true
  ∧ Translator.process_c_instruction hack_c_map "D=D+A"
    = Ok "1110000010010000"
  ∧ Translator.process_c_instruction hack_c_map "D;JGT"
    = Ok "1110001100000001".
Proof.
  split; [reflexivity|]. split; [reflexivity|]. split; [reflexivity|].
  split.
  - apply (proj1 (C9_c_instruction_fields hack_c_map "D=D+A" _) eq_refl).
    exists "0000010", "010", "000". repeat split; reflexivity.
  - apply (proj2 (C9_c_instruction_fields hack_c_map "D;JGT" _)
             eq_refl eq_refl).
    exists "0001100", "000", "001". repeat split; reflexivity.
Defined.

(** ** The words of the output *)

Section Words.

Implicit Types (self : Translator.translator) (line instr : string).

Lemma process_a_resolve line self :
  Translator.process_a_instruction line self
  = (instr ← Translator._convert_a_instruction
               (resolve line self).1 (resolve line self).2;
     Ok (instr, (resolve line self).2)).
Proof.
  unfold Translator.process_a_instruction, resolve.
  destruct (PyStr.int (PyStr.drop_first line)); [reflexivity|].
  by destruct (Translator._allocate_address_if_needed _ self).
Qed.

Lemma a_word_is_word16 (a : Z) : is_word16 (String "0" (bits 15 a)).
Proof.
  apply is_word16_fragment.
  change (String "0" (bits 15 a)) with ("0" ++ bits 15 a).
  apply (is_fragment_app 1 15); [done|apply is_fragment_bits].
Qed.


(** C3, as the code has it. Under a mnemonic table of the Hack layout the
    word of a C-instruction has 16 characters, each 0 or 1. The word of an
    A-instruction whose address lies in 0..32767 is 0 followed by the 15
    bits of the address, which are 16 such characters. An address above
    32767 ends the run with [sys.exit(3)] exactly when its decimal text is
    not bound in the symbol table; when it is bound to a value in 0..32767,
    that value is encoded in its place. *)
Theorem C3_emitted_words :
  (∀ c_instruction_map line instr self self',
     c_map_wf c_instruction_map →
     PyStr.startswith "@" line = false →
     Translator.encode c_instruction_map line self = Ok (instr, self') →
     is_word16 instr ∧ self' = self)
  ∧ (∀ c_instruction_map line self,
       PyStr.startswith "@" line = true →
       let address := (resolve line self).1 in
       let self' := (resolve line self).2 in
       ((0 ≤ address ≤ 32767)%Z →
        Translator.encode c_instruction_map line self
        = Ok (String "0" (bits 15 address), self'))
       ∧ ((32767 < address)%Z →
          (Translator.encode c_instruction_map line self
           = Raise (SystemExit 3)
           ↔ Translator.symbol_table self' !! PyStr.str address = None)
          ∧ ∀ a : Z,
              Translator.symbol_table self' !! PyStr.str address = Some a →
              (0 ≤ a ≤ 32767)%Z →
              Translator.encode c_instruction_map line self
              = Ok (String "0" (bits 15 a), self')))
  ∧ (∀ a : Z, is_word16 (String "0" (bits 15 a))).
Proof.
  split; [|split].
  - intros c_instruction_map line instr self self' Hwf Hstart.
    unfold Translator.encode. rewrite Hstart.
    destruct (Translator.process_c_instruction c_instruction_map line)
      as [w|e] eqn:Hc; [|discriminate].
    intros [= <- <-]. split; [|done].
    by apply (process_c_is_word16 c_instruction_map line).
  - intros c_instruction_map line self Hstart. cbn zeta.
    unfold Translator.encode. rewrite Hstart, process_a_resolve.
    destruct (resolve line self) as [address self']. cbn [fst snd].
    split.
    + intros Hrange. by rewrite convert_in_range.
    + intros Hover. rewrite convert_over_range by done.
      destruct (Translator.symbol_table self' !! PyStr.str address)
        as [v|] eqn:Hv.
      * split; [split; discriminate|].
        intros a [= <-] Hrange. cbn [mbind result_bind].
        change 15%Z with Translator.A_INSTRUCTION_LENGTH.
        by rewrite format_b_padded.
      * split; [done|]. discriminate.
  - apply a_word_is_word16.
Qed.

Lemma C3_emitted_words_witness :
  c_map_wf hack_c_map
  ∧ PyStr.startswith "@" "M=M+1" = false
  ∧ is_word16 "1111110111001000"
  ∧ PyStr.startswith "@" "@i" = true
  ∧ Translator.encode hack_c_map "@i"
      (Translator.init SymbolTable._get_defaults)
    = Ok ("0000000000010000",
          Translator.Translator 17 (<["i" := 16%Z]> SymbolTable._get_defaults))
  ∧ (Translator.encode hack_c_map "@32768"
       (Translator.init SymbolTable._get_defaults)
     = Raise (SystemExit 3)).
Proof.
  pose proof C3_emitted_words as (Hc & Ha & _).
  split; [apply hack_c_map_wf|]. split; [reflexivity|].
  split.
  - apply (Hc hack_c_map "M=M+1" "1111110111001000"
             (Translator.init SymbolTable._get_defaults)
             (Translator.init SymbolTable._get_defaults));
      [apply hack_c_map_wf | reflexivity | reflexivity].
  - split; [reflexivity|]. split.
    + apply (proj1 (Ha hack_c_map "@i"
                      (Translator.init SymbolTable._get_defaults)
                      eq_refl)).
      vm_compute. split; discriminate.
    + apply (proj1 (proj2 (Ha hack_c_map "@32768"
                             (Translator.init SymbolTable._get_defaults)
                             eq_refl) eq_refl)).
      reflexivity.
Defined.

End Words.

(** ** A program longer than the address space *)

Section LongProgram.

Lemma read_lines_repeat_a0 (n : nat) (st : Reader.state) :
  foldl Reader.read_line st (repeat "@0" n)
  = Reader.State (Reader.program_code st ++ repeat "@0" n)
      (Reader.line_counter st + Z.of_nat n) (Reader.symbol_table st).
Proof.
  revert st. induction n as [|n IH]; intros st.
  - cbn. rewrite app_nil_r, Z.add_0_r. by destruct st.
  - cbn [repeat foldl]. rewrite IH.
    rewrite (read_line_instruction st "@0") by reflexivity.
    cbn [Reader.program_code Reader.line_counter Reader.symbol_table].
    change (Reader.line_part "@0") with "@0".
    rewrite <- app_assoc. f_equal. lia.
Qed.

Lemma encode_a0 (c_instruction_map : Translator.c_map)
    (self : Translator.translator) :
  Translator.encode c_instruction_map "@0" self
  = Ok ("0000000000000000", self).
Proof. reflexivity. Qed.

Lemma translate_repeat_a0 (c_instruction_map : Translator.c_map) (n : nat)
    (code : list string) (self : Translator.translator) :
  Translator.translate c_instruction_map (repeat "@0" n ++ code) self
  = ((repeat "0000000000000000" n
      ++ (Translator.translate c_instruction_map code self).1)%list,
     (Translator.translate c_instruction_map code self).2).
Proof.
  induction n as [|n IH].
  - cbn [repeat app]. by destruct (Translator.translate _ code self).
  - cbn [repeat]. rewrite <- !app_comm_cons, translate_cons, encode_a0.
    by rewrite IH.
Qed.

(** Pass 1 on 32768 instructions followed by the label [(32768)] and a
    reference to it: the label is bound to its own number. *)
Lemma read_long_program :
  Reader.read_source (repeat "@0" (Z.to_nat 32768) ++ ["(32768)"; "@32768"])
  = ((repeat "@0" (Z.to_nat 32768) ++ ["@32768"])%list,
     <["32768" := 32768%Z]> SymbolTable._get_defaults).
Proof.
  unfold Reader.read_source. rewrite foldl_app, read_lines_repeat_a0.
  cbn [foldl]. rewrite (read_line_label _ "(32768)") by reflexivity.
  rewrite (read_line_instruction _ "@32768") by reflexivity.
  cbn [Reader.program_code Reader.line_counter Reader.symbol_table
       Reader.initial fst snd app].
  change (Reader.line_part "@32768") with "@32768".
  change (PyStr.slice_1_m1 (Reader.line_part "(32768)")) with "32768".
  replace (truthy (SymbolTable.get_value "32768" SymbolTable._get_defaults))
    with false by reflexivity.
  rewrite Z2Nat.id by done. reflexivity.
Qed.

(** C3 fails on the code in two ways. The line [@-1] is translated without
    error into a word holding a minus sign. And an address beyond 15 bits
    that the fallback lookup finds bound is written out as it is: after
    32768 instructions the label [(32768)] is bound to 32768, and [@32768]
    is translated, without error, into a word of 17 characters. *)
Lemma C3_counterexample :
  ((∀ c_instruction_map,
      Translator.encode c_instruction_map "@-1"
        (Translator.init SymbolTable._get_defaults)
      = Ok ("00000000000000-1", Translator.init SymbolTable._get_defaults))
   ∧ ¬ is_word16 "00000000000000-1")
  ∧ (let infile :=
       (repeat "@0" (Z.to_nat 32768) ++ ["(32768)"; "@32768"])%list in
     let code := (Reader.read_source infile).1 in
     let table := (Reader.read_source infile).2 in
     (∀ c_instruction_map,
        Translator.translate c_instruction_map code (Translator.init table)
        = ((repeat "0000000000000000" (Z.to_nat 32768)
            ++ ["01000000000000000"])%list,
           Ok (Translator.init table)))
     ∧ table !! "32768" = Some 32768%Z
     ∧ String.length "01000000000000000" = 17%nat
     ∧ ¬ is_word16 "01000000000000000").
Proof.
  split; [split; [reflexivity|]|].
  - intros [_ Hbits]. discriminate Hbits.
  - cbn zeta. rewrite read_long_program. cbn [fst snd].
    split; [|split; [reflexivity|split; [reflexivity|]]].
    + intros c_instruction_map. rewrite translate_repeat_a0. reflexivity.
    + intros [Hlen _]. discriminate Hlen.
Qed.

End LongProgram.

(** ** The example of six lines *)

Section SixLines.

(** C4 fails as stated: none of the six lines is a label, so pass 1 keeps
    six instructions, not four, and whatever the mnemonic table the pass
    never writes exactly four words (it writes six, or stops after one,
    three or five at a missing mnemonic). *)
Lemma C4_counterexample :
  let infile := ["@2"; "D=A"; "@3"; "D=D+A"; "@0"; "M=D"] in
  (Reader.read_source infile).1 = infile
  ∧ length (Reader.read_source infile).1 ≠ 4%nat
  ∧ ∀ c_instruction_map,
      length (Translator.translate c_instruction_map
                (Reader.read_source infile).1
                (Translator.init (Reader.read_source infile).2)).1 ≠ 4%nat.
Proof.
  cbn zeta. split; [reflexivity|]. split; [discriminate|].
  intros c_instruction_map.
  change (Reader.read_source ["@2"; "D=A"; "@3"; "D=D+A"; "@0"; "M=D"]).1
    with ["@2"; "D=A"; "@3"; "D=D+A"; "@0"; "M=D"].
  unfold Translator.translate. cbn [Translator.translate_loop].
  unfold Translator.encode, Translator.process_c_instruction,
    Translator._convert_c_instruction, Translator.lookup_field.
  cbn.
  repeat (match goal with
          | |- context [?m !! ?k] => destruct (m !! k)
          end; cbn); discriminate.
Qed.

(** C4, as the code has it: the six lines are six instructions and, when
    the table is of the Hack layout and holds their mnemonics, six words of
    16 bits, the first of which is 0000000000000010; the symbol table and
    the free-address counter are left as they were. *)
Theorem C4_six_lines (c_instruction_map : Translator.c_map)
    (cA cDA cD dD dM jn : string) :
  c_map_wf c_instruction_map →
  Translator.comp c_instruction_map !! "A" = Some cA →
  Translator.comp c_instruction_map !! "D+A" = Some cDA →
  Translator.comp c_instruction_map !! "D" = Some cD →
  Translator.dest c_instruction_map !! "D" = Some dD →
  Translator.dest c_instruction_map !! "M" = Some dM →
  Translator.jmp c_instruction_map !! "null" = Some jn →
  let infile := ["@2"; "D=A"; "@3"; "D=D+A"; "@0"; "M=D"] in
  Reader.read_source infile = (infile, SymbolTable._get_defaults)
  ∧ length (Reader.read_source infile).1 = 6%nat
  ∧ Translator.translate c_instruction_map infile
      (Translator.init SymbolTable._get_defaults)
    = (["0000000000000010"; c_word cA dD jn;
        "0000000000000011"; c_word cDA dD jn;
        "0000000000000000"; c_word cD dM jn],
       Ok (Translator.init SymbolTable._get_defaults))
  ∧ Forall is_word16
      ["0000000000000010"; c_word cA dD jn;
       "0000000000000011"; c_word cDA dD jn;
       "0000000000000000"; c_word cD dM jn]
  ∧ script c_instruction_map (Some (File ".asm" (Some infile)))
    = ([["0000000000000010"; c_word cA dD jn;
         "0000000000000011"; c_word cDA dD jn;
         "0000000000000000"; c_word cD dM jn]], Ok tt).
Proof.
  intros (Hcomp & Hdest & Hjmp) HA HDA HD HdD HdM Hjn. cbn zeta.
  assert (Hpass :
    Translator.translate c_instruction_map
      ["@2"; "D=A"; "@3"; "D=D+A"; "@0"; "M=D"]
      (Translator.init SymbolTable._get_defaults)
    = (["0000000000000010"; c_word cA dD jn;
        "0000000000000011"; c_word cDA dD jn;
        "0000000000000000"; c_word cD dM jn],
       Ok (Translator.init SymbolTable._get_defaults))).
  { unfold Translator.translate. cbn [Translator.translate_loop].
    unfold Translator.encode, Translator.process_c_instruction,
      Translator._convert_c_instruction, Translator.lookup_field.
    cbn. rewrite HA, HDA, HD, HdD, HdM, Hjn. cbn.
    unfold c_word. by rewrite !string_app_assoc. }
  split; [reflexivity|]. split; [reflexivity|]. split; [exact Hpass|].
  split.
  { repeat apply Forall_cons_2; try apply Forall_nil_2;
      try (split; reflexivity);
      apply c_word_is_word16; eauto. }
  unfold script, main, _translate_assembly_to_hack.
  change (is_asm_input ".asm") with (Ok true).
  change (Reader.read_source ["@2"; "D=A"; "@3"; "D=D+A"; "@0"; "M=D"])
    with (["@2"; "D=A"; "@3"; "D=D+A"; "@0"; "M=D"],
          SymbolTable._get_defaults).
  cbv iota beta. by rewrite Hpass.
Qed.

Lemma C4_six_lines_witness :
  c_map_wf hack_c_map
  ∧ Translator.comp hack_c_map !! "A" = Some "0110000"
  ∧ Translator.jmp hack_c_map !! "null" = Some "000"
  ∧ Translator.translate hack_c_map
      ["@2"; "D=A"; "@3"; "D=D+A"; "@0"; "M=D"]
      (Translator.init SymbolTable._get_defaults)
    = (["0000000000000010"; "1110110000010000";
        "0000000000000011"; "1110000010010000";
        "0000000000000000"; "1110001100001000"],
       Ok (Translator.init SymbolTable._get_defaults)).
Proof.
  split; [apply hack_c_map_wf|]. split; [reflexivity|].
  split; [reflexivity|].
  apply (C4_six_lines hack_c_map
           "0110000" "0000010" "0001100" "010" "001" "000");
    [apply hack_c_map_wf | reflexivity ..].
Defined.

End SixLines.

(** ** Fatal errors and exit statuses *)

Section Fatal.

Variable c_instruction_map : Translator.c_map.

Implicit Types (self : Translator.translator) (e : error).









End Fatal.




(** * Further properties of the code *)

(** ** The symbol table *)

Section SymbolTableFacts.

Implicit Types (table : gmap string Z) (symbol : string) (address : Z).

(** X1. The table a [SymbolTable] starts with holds exactly 23 symbols: SP,
    LCL, ARG, THIS, THAT, SCREEN, KBD and R0..R15 with R[i] bound to [i];
    every predefined address lies in 0..24576, so fits in 15 bits. *)
Theorem X1_default_symbols :
  size SymbolTable._get_defaults = 23%nat
  ∧ (∀ i : Z, (0 ≤ i < 16)%Z →
       SymbolTable.get_value ("R" ++ PyStr.str i) SymbolTable._get_defaults
       = PyInt i)
  ∧ map (λ symbol, SymbolTable.get_value symbol SymbolTable._get_defaults)
      ["SP"; "LCL"; "ARG"; "THIS"; "THAT"; "SCREEN"; "KBD"]
    = [PyInt 0; PyInt 1; PyInt 2; PyInt 3; PyInt 4; PyInt 16384; PyInt 24576]
  ∧ (∀ symbol address,
       SymbolTable._get_defaults !! symbol = Some address →
       (0 ≤ address ≤ 24576)%Z ∧ (address ≤ Translator.A_SIZE)%Z).
Proof.
  split; [reflexivity|]. split.
  { intros i Hi.
    assert (Hcases : i ∈ seqZ 0 16) by (apply elem_of_seqZ; lia).
    cbn in Hcases. repeat (apply elem_of_cons in Hcases as [->|Hcases];
                           [reflexivity|]).
    by apply elem_of_nil in Hcases. }
  split; [reflexivity|].
  intros symbol address Hbound.
  assert (Hall : map_Forall (λ _ v, (0 ≤ v ≤ 24576)%Z)
                   SymbolTable._get_defaults)
    by (refine (bool_decide_unpack _ _); vm_compute; exact I).
  specialize (Hall symbol address Hbound). cbn in Hall.
  unfold Translator.A_SIZE. lia.
Qed.

Lemma X1_default_symbols_witness :
  (0 ≤ 7 < 16)%Z
  ∧ SymbolTable.get_value "R7" SymbolTable._get_defaults = PyInt 7
  ∧ SymbolTable._get_defaults !! "KBD" = Some 24576%Z
  ∧ (24576 ≤ Translator.A_SIZE)%Z.
Proof.
  pose proof X1_default_symbols as (_ & Hreg & _ & Hrange).
  split; [lia|]. split; [apply (Hreg 7%Z); lia|].
  split; [reflexivity|]. apply (Hrange "KBD" 24576%Z). reflexivity.
Defined.

(** X2. A stored symbol is found with the address stored last, whatever it
    is, and storing does not touch the other symbols. [get_value] returns
    [False] exactly for an absent symbol; its result is false as a truth
    value for an absent symbol and also for one bound to 0. *)
Theorem X2_store_then_lookup table symbol address :
  SymbolTable.get_value symbol
    (SymbolTable.store_symbol symbol address table) = PyInt address
  ∧ (∀ previous,
       SymbolTable.store_symbol symbol address
         (SymbolTable.store_symbol symbol previous table)
       = SymbolTable.store_symbol symbol address table)
  ∧ (∀ other, other ≠ symbol →
       SymbolTable.get_value other
         (SymbolTable.store_symbol symbol address table)
       = SymbolTable.get_value other table)
  ∧ (is_False (SymbolTable.get_value symbol table) = true
     ↔ table !! symbol = None)
  ∧ (truthy (SymbolTable.get_value symbol table) = false
     ↔ table !! symbol = None ∨ table !! symbol = Some 0%Z).
Proof.
  unfold SymbolTable.get_value, SymbolTable.store_symbol.
  split; [by rewrite lookup_insert_eq|].
  split; [intros previous; apply insert_insert_eq|].
  split; [intros other Hother; by rewrite lookup_insert_ne|].
  destruct (table !! symbol) as [v|]; cbn.
  - split; [split; [discriminate | discriminate]|].
    rewrite negb_false_iff, Z.eqb_eq. split.
    + intros ->. by right.
    + intros [?|[= ->]]; [discriminate|reflexivity].
  - split; [done|]. split; [by left | done].
Qed.

Lemma X2_store_then_lookup_witness :
  "LOOP" ≠ "SP"
  ∧ SymbolTable.get_value "LOOP"
      (SymbolTable.store_symbol "SP" 5 SymbolTable._get_defaults) = PyFalse
  ∧ truthy (SymbolTable.get_value "SP" SymbolTable._get_defaults) = false.
Proof.
  pose proof (X2_store_then_lookup SymbolTable._get_defaults "SP" 5%Z)
    as (_ & _ & Hother & _ & Hfalsy).
  split; [discriminate|]. split.
  - rewrite (Hother "LOOP"); [reflexivity | discriminate].
  - apply Hfalsy. right. reflexivity.
Defined.

End SymbolTableFacts.

(** ** Stripping and comments *)

Section Stripping.

Implicit Types (s t : string) (c : ascii).

Lemma length_lstrip s : (String.length (PyStr.lstrip s) ≤ String.length s)%nat.
Proof.
  induction s as [|c s IH]; [done|]. cbn [PyStr.lstrip].
  destruct (PyStr.is_space c); cbn [String.length]; lia.
Qed.

(** A string [lstrip] leaves alone does not start with white space. *)
Lemma lstrip_fixed c s :
  PyStr.lstrip (String c s) = String c s → PyStr.is_space c = false.
Proof.
  cbn [PyStr.lstrip]. destruct (PyStr.is_space c); [|done].
  intros Heq. pose proof (length_lstrip s) as Hlen.
  rewrite Heq in Hlen. cbn [String.length] in Hlen. lia.
Qed.

Lemma lstrip_idem s : PyStr.lstrip (PyStr.lstrip s) = PyStr.lstrip s.
Proof.
  induction s as [|c s IH]; [done|]. cbn [PyStr.lstrip].
  destruct (PyStr.is_space c) eqn:Hc; [done|].
  cbn [PyStr.lstrip]. by rewrite Hc.
Qed.

(** [rstrip] keeps the first character of what it leaves. *)
Lemma rstrip_cons c s :
  PyStr.rstrip (String c s) = EmptyString
  ∨ PyStr.rstrip (String c s) = String c (PyStr.rstrip s).
Proof.
  cbn [PyStr.rstrip]. destruct (PyStr.rstrip s); [|by right].
  destruct (PyStr.is_space c); auto.
Qed.

Lemma rstrip_idem s : PyStr.rstrip (PyStr.rstrip s) = PyStr.rstrip s.
Proof.
  induction s as [|c s IH]; [done|]. cbn [PyStr.rstrip].
  destruct (PyStr.rstrip s) as [|d r] eqn:Hr.
  - destruct (PyStr.is_space c) eqn:Hc; [done|].
    cbn [PyStr.rstrip]. by rewrite Hc.
  - change (PyStr.rstrip (String c (String d r)))
      with (match PyStr.rstrip (String d r) with
            | EmptyString =>
                if PyStr.is_space c then EmptyString else String c EmptyString
            | r' => String c r'
            end).
    by rewrite IH.
Qed.

Lemma lstrip_rstrip s :
  PyStr.lstrip s = s → PyStr.lstrip (PyStr.rstrip s) = PyStr.rstrip s.
Proof.
  destruct s as [|c s]; [done|]. intros Hc%lstrip_fixed.
  destruct (rstrip_cons c s) as [-> | ->]; [done|].
  cbn [PyStr.lstrip]. by rewrite Hc.
Qed.

Lemma strip_idem s : PyStr.strip (PyStr.strip s) = PyStr.strip s.
Proof.
  unfold PyStr.strip.
  rewrite (lstrip_rstrip (PyStr.lstrip s)) by apply lstrip_idem.
  apply rstrip_idem.
Qed.

(** The comment stripper, one character at a time. *)
Lemma split_slashes_0_cons c s :
  PyStr.split_slashes_0 (String c s)
  = if Ascii.eqb c "/" && PyStr.startswith "/" s then EmptyString
    else String c (PyStr.split_slashes_0 s).
Proof.
  destruct (Ascii.eqb_spec c "/") as [->|Hc].
  - destruct s as [|d s]; [reflexivity|].
    cbn [PyStr.startswith andb].
    destruct (Ascii.eqb_spec "/" d) as [<-|Hd]; [reflexivity|].
    destruct d as [[] [] [] [] [] [] [] []]; try reflexivity.
    by destruct Hd.
  - cbn [andb].
    destruct c as [[] [] [] [] [] [] [] []]; try reflexivity.
    by destruct Hc.
Qed.

(** What is left of the comment stripper holds no two adjacent slashes. *)
Lemma split_slashes_0_idem s :
  PyStr.split_slashes_0 (PyStr.split_slashes_0 s) = PyStr.split_slashes_0 s.
Proof.
  induction s as [|c s IH]; [done|]. rewrite split_slashes_0_cons.
  destruct (Ascii.eqb c "/" && PyStr.startswith "/" s) eqn:Hcut; [done|].
  rewrite split_slashes_0_cons, IH.
  destruct (Ascii.eqb c "/") eqn:Hc; [|done]. cbn [andb] in *.
  destruct s as [|d s]; [done|]. cbn [PyStr.startswith] in Hcut.
  rewrite split_slashes_0_cons.
  destruct (Ascii.eqb d "/" && PyStr.startswith "/" s); [done|].
  cbn [PyStr.startswith]. by rewrite Hcut.
Qed.

Lemma comment_free_tail c s :
  PyStr.split_slashes_0 (String c s) = String c s →
  PyStr.split_slashes_0 s = s.
Proof.
  rewrite split_slashes_0_cons.
  destruct (Ascii.eqb c "/" && PyStr.startswith "/" s); congruence.
Qed.

Lemma comment_free_lstrip s :
  PyStr.split_slashes_0 s = s →
  PyStr.split_slashes_0 (PyStr.lstrip s) = PyStr.lstrip s.
Proof.
  induction s as [|c s IH]; [done|]. intros Hfree. cbn [PyStr.lstrip].
  destruct (PyStr.is_space c); [|done]. by apply IH, (comment_free_tail c).
Qed.

Lemma comment_free_rstrip s :
  PyStr.split_slashes_0 s = s →
  PyStr.split_slashes_0 (PyStr.rstrip s) = PyStr.rstrip s.
Proof.
  induction s as [|c s IH]; [done|]. intros Hfree.
  pose proof (comment_free_tail c s Hfree) as Htail.
  destruct (rstrip_cons c s) as [-> | ->]; [done|].
  rewrite split_slashes_0_cons, (IH Htail).
  rewrite split_slashes_0_cons in Hfree.
  destruct (Ascii.eqb c "/") eqn:Hc; [|done]. cbn [andb] in *.
  destruct s as [|d s]; [done|]. cbn [PyStr.startswith] in Hfree.
  destruct (Ascii.eqb "/" d) eqn:Hd; [discriminate|].
  destruct (rstrip_cons d s) as [-> | ->]; [done|].
  cbn [PyStr.startswith]. by rewrite Hd.
Qed.

(** A string with two adjacent slashes is cut by the comment stripper. *)
Lemma split_slashes_0_cuts s t :
  (String.length (PyStr.split_slashes_0 (s ++ String "/" (String "/" t)))
   ≤ String.length s)%nat.
Proof.
  induction s as [|c s IH]; [vm_compute; lia|].
  rewrite string_app_cons, split_slashes_0_cons.
  destruct (Ascii.eqb c "/" && PyStr.startswith "/" _);
    cbn [String.length]; lia.
Qed.

(** [line_part] is stripped, comment-free, and a fixed point of itself. *)
Lemma line_part_clean (line : string) :
  PyStr.strip (Reader.line_part line) = Reader.line_part line
  ∧ PyStr.split_slashes_0 (Reader.line_part line) = Reader.line_part line
  ∧ Reader.line_part (Reader.line_part line) = Reader.line_part line.
Proof.
  assert (Hstrip : PyStr.strip (Reader.line_part line)
                   = Reader.line_part line) by apply strip_idem.
  assert (Hfree : PyStr.split_slashes_0 (Reader.line_part line)
                  = Reader.line_part line).
  { unfold Reader.line_part, PyStr.strip at 1.
    apply comment_free_rstrip, comment_free_lstrip, split_slashes_0_idem. }
  split; [done|]. split; [done|].
  unfold Reader.line_part at 1. by rewrite Hstrip, Hfree.
Qed.

End Stripping.

(** ** Pass 1 *)

Section PassOne.

Implicit Types (st : Reader.state) (line name : string).
Implicit Types (infile pre post : list string).

Lemma instructions_sublist infile :
  instructions infile `sublist_of` (Reader.line_part <$> infile).
Proof.
  induction infile as [|line infile IH]; [done|].
  unfold instructions. cbn [omap list_omap fmap list_fmap].
  fold (instructions infile).
  destruct ((PyStr.len (Reader.line_part line) >? 0)%Z
            && negb (PyStr.startswith "(" (Reader.line_part line))).
  - by apply sublist_skip.
  - by apply sublist_cons.
Qed.

(** X3. The instruction list pass 1 hands to the encoder holds, in source
    order, stripped lines of the source; none of them is empty, starts with
    an opening parenthesis, has white space at either end, or holds two
    adjacent slashes. *)
Theorem X3_program_code_clean infile :
  (Reader.read_source infile).1 `sublist_of` (Reader.line_part <$> infile)
  ∧ ∀ code_piece,
      code_piece ∈ (Reader.read_source infile).1 →
      code_piece ≠ ""
      ∧ PyStr.startswith "(" code_piece = false
      ∧ PyStr.strip code_piece = code_piece
      ∧ ∀ s t, code_piece ≠ s ++ "//" ++ t.
Proof.
  rewrite read_source_code. split; [apply instructions_sublist|].
  intros code_piece Hin. unfold instructions in Hin.
  apply list_elem_of_omap in Hin as (line & _ & Hline).
  destruct (PyStr.len (Reader.line_part line) >? 0)%Z eqn:Hlen;
    [|discriminate].
  destruct (PyStr.startswith "(" (Reader.line_part line)) eqn:Hstart;
    [discriminate|].
  injection Hline as <-.
  destruct (line_part_clean line) as (Hstrip & Hfree & _).
  split; [by intros Heq; rewrite Heq in Hlen|].
  split; [done|]. split; [done|].
  intros s t Heq. rewrite Heq in Hfree.
  pose proof (split_slashes_0_cuts s t) as Hcut.
  change (s ++ "//" ++ t) with (s ++ String "/" (String "/" t)) in Hfree.
  rewrite Hfree, string_length_app in Hcut. cbn [String.length] in Hcut. lia.
Qed.

Lemma X3_program_code_clean_witness :
  "D=M" ∈ (Reader.read_source ["  D=M  // load"; "(END)"; ""]).1
  ∧ PyStr.strip "D=M" = "D=M".
Proof.
  pose proof (X3_program_code_clean ["  D=M  // load"; "(END)"; ""])
    as [_ Hclean].
  assert (Hin : "D=M" ∈ (Reader.read_source
                           ["  D=M  // load"; "(END)"; ""]).1)
    by (apply list_elem_of_singleton; reflexivity).
  split; [exact Hin|]. by destruct (Hclean "D=M" Hin) as (_ & _ & Hstrip & _).
Defined.

(** X4. Once a name is bound to a non-zero address, by the defaults or by a
    label line, the rest of pass 1 keeps that binding, whatever follows. *)
Theorem X4_nonzero_binding_kept pre post name (address : Z) :
  (Reader.read_source pre).2 !! name = Some address →
  address ≠ 0%Z →
  (Reader.read_source (pre ++ post)).2 !! name = Some address.
Proof.
  unfold Reader.read_source. cbn [snd]. intros Hbound Hnonzero.
  rewrite foldl_app. by apply read_lines_keep_nonzero.
Qed.

Lemma X4_nonzero_binding_kept_witness :
  (Reader.read_source ["@0"; "(END)"]).2 !! "END" = Some 1%Z
  ∧ 1%Z ≠ 0%Z
  ∧ (Reader.read_source (["@0"; "(END)"] ++ ["@1"; "(END)"; "(KBD)"])).2
    !! "END" = Some 1%Z.
Proof.
  split; [reflexivity|]. split; [discriminate|].
  apply (X4_nonzero_binding_kept ["@0"; "(END)"] ["@1"; "(END)"; "(KBD)"]
           "END" 1%Z); [reflexivity | discriminate].
Defined.

#[local] Set Warnings "-clear-no-such-hyp".

Lemma read_lines_dom infile st :
  dom (Reader.symbol_table (foldl Reader.read_line st infile))
  = dom (Reader.symbol_table st) ∪ list_to_set (label_names infile).
Proof.
  revert st. induction infile as [|line infile IH]; intros st.
  - cbn. set_solver.
  - cbn [foldl]. rewrite IH. unfold label_names.
    cbn [omap list_omap]. fold (label_names infile).
    destruct (line_cases line) as [Hb|[[Hl Hs]|[Hl Hs]]].
    + by rewrite (read_line_blank _ _ Hb), Hb.
    + by rewrite (read_line_instruction _ _ Hl Hs), Hl, Hs.
    + rewrite (read_line_label _ _ Hl Hs), Hl, Hs.
      cbn [andb Reader.symbol_table list_to_set].
      unfold SymbolTable.get_value.
      destruct (Reader.symbol_table st
                  !! PyStr.slice_1_m1 (Reader.line_part line))
        as [v|] eqn:Hname; cbn [truthy].
      * apply elem_of_dom_2 in Hname.
        destruct (negb (v =? 0)%Z); [|rewrite dom_insert_L]; set_solver.
      * rewrite dom_insert_L. set_solver.
Qed.

(** X5. After pass 1 the symbol table binds exactly the predefined symbols
    and the names of the label lines of the source. *)
Theorem X5_symbols_after_pass_one infile :
  dom (Reader.read_source infile).2
  = dom SymbolTable._get_defaults ∪ list_to_set (label_names infile).
Proof. unfold Reader.read_source. cbn [snd]. apply read_lines_dom. Qed.

Lemma read_lines_bounds infile st name (address : Z) :
  Reader.symbol_table (foldl Reader.read_line st infile) !! name
  = Some address →
  Reader.symbol_table st !! name = Some address
  ∨ (name ∈ label_names infile
     ∧ (Reader.line_counter st + 1 ≤ address
        ≤ Reader.line_counter st + 1
          + Z.of_nat (length (instructions infile)))%Z).
Proof.
  revert st. induction infile as [|line infile IH]; intros st; [by left|].
  cbn [foldl]. intros Hfinal. apply IH in Hfinal.
  unfold label_names, instructions. cbn [omap list_omap].
  fold (label_names infile) (instructions infile).
  destruct (line_cases line) as [Hb|[[Hl Hs]|[Hl Hs]]].
  - rewrite (read_line_blank _ _ Hb) in Hfinal. by rewrite Hb.
  - rewrite (read_line_instruction _ _ Hl Hs) in Hfinal.
    cbn [Reader.symbol_table Reader.line_counter] in Hfinal.
    rewrite Hl, Hs. cbn [andb negb length].
    destruct Hfinal as [?|[? ?]]; [by left|right]. split; [done|lia].
  - rewrite (read_line_label _ _ Hl Hs) in Hfinal.
    cbn [Reader.symbol_table Reader.line_counter] in Hfinal.
    rewrite Hl, Hs. cbn [andb negb].
    destruct Hfinal as [Hnow|[Hin Hrange]];
      [|right; split; [apply elem_of_cons; by right | done]].
    destruct (truthy _); [by left|].
    destruct (decide (PyStr.slice_1_m1 (Reader.line_part line) = name))
      as [Heq|Hne].
    + rewrite Heq, lookup_insert_eq in Hnow. injection Hnow as <-.
      right. rewrite Heq. split; [apply elem_of_cons; by left | lia].
    + rewrite lookup_insert_ne in Hnow by done. by left.
Qed.

(** X6. Every binding of the table after pass 1 is a predefined one or
    belongs to a label of the source, and then lies between 0 and the number
    of instructions: pass 1 stores no other address. *)
Theorem X6_label_addresses_bounded infile name (address : Z) :
  (Reader.read_source infile).2 !! name = Some address →
  SymbolTable._get_defaults !! name = Some address
  ∨ (name ∈ label_names infile
     ∧ (0 ≤ address ≤ Z.of_nat (length (Reader.read_source infile).1))%Z).
Proof.
  rewrite read_source_code. unfold Reader.read_source. cbn [snd].
  intros Hfinal. apply read_lines_bounds in Hfinal as [?|[? ?]]; [by left|].
  right. cbn [Reader.initial Reader.line_counter] in *. split; [done|lia].
Qed.

Lemma X6_label_addresses_bounded_witness :
  (Reader.read_source ["@0"; "(END)"; "@END"]).2 !! "END" = Some 1%Z
  ∧ (SymbolTable._get_defaults !! "END" = Some 1%Z
     ∨ ("END" ∈ label_names ["@0"; "(END)"; "@END"]
        ∧ (0 ≤ 1 ≤ Z.of_nat
                     (length (Reader.read_source
                                ["@0"; "(END)"; "@END"]).1))%Z)).
Proof.
  split; [reflexivity|].
  apply (X6_label_addresses_bounded ["@0"; "(END)"; "@END"] "END" 1%Z).
  reflexivity.
Defined.

Lemma read_line_line_part st line :
  Reader.read_line st (Reader.line_part line) = Reader.read_line st line.
Proof.
  unfold Reader.read_line.
  by rewrite (proj2 (proj2 (line_part_clean line))).
Qed.

(** X7. Pass 1 sees a line only through what is left of it after stripping
    white space and the comment, and skips the lines of which nothing is
    left: stripping every line beforehand, or removing or inserting blank
    and comment-only lines, changes neither the instruction list nor the
    symbol table. *)
Theorem X7_whitespace_and_comments_ignored :
  (∀ infile,
     Reader.read_source (Reader.line_part <$> infile)
     = Reader.read_source infile)
  ∧ (∀ pre post line,
       Reader.line_part line = "" →
       Reader.read_source (pre ++ line :: post)
       = Reader.read_source (pre ++ post)).
Proof.
  split.
  - intros infile. unfold Reader.read_source.
    enough (Hfold : ∀ st, foldl Reader.read_line st
                            (Reader.line_part <$> infile)
                          = foldl Reader.read_line st infile)
      by (by rewrite Hfold).
    induction infile as [|line infile IH]; intros st; [done|].
    cbn [fmap list_fmap foldl]. by rewrite read_line_line_part, <- IH.
  - intros pre post line Hblank. unfold Reader.read_source.
    rewrite !foldl_app. cbn [foldl].
    by rewrite (read_line_blank _ line) by (by rewrite Hblank).
Qed.

Lemma X7_whitespace_and_comments_ignored_witness :
  Reader.line_part "   // only a comment" = ""
  ∧ Reader.read_source (["@1"] ++ "   // only a comment" :: ["(A)"; "@A"])
    = Reader.read_source (["@1"] ++ ["(A)"; "@A"]).
Proof.
  split; [reflexivity|].
  apply (proj2 X7_whitespace_and_comments_ignored).
  reflexivity.
Defined.

End PassOne.

(** ** Pass 2 *)

Section PassTwo.

Variable c_instruction_map : Translator.c_map.

Implicit Types (self : Translator.translator) (code outfile : list string).

#[local] Set Warnings "-clear-no-such-hyp".

Lemma allocate_all_dom (keys : list string) self :
  dom (Translator.symbol_table (allocate_all keys self).2)
  = dom (Translator.symbol_table self) ∪ list_to_set keys.
Proof.
  revert self. induction keys as [|k keys IH]; intros self.
  - cbn. set_solver.
  - rewrite allocate_all_cons. cbn [snd list_to_set]. rewrite IH.
    destruct (Translator.symbol_table self !! k) as [a|] eqn:Hk.
    + rewrite (allocate_bound _ _ _ Hk). apply elem_of_dom_2 in Hk.
      set_solver.
    + rewrite (allocate_unbound _ _ Hk). cbn [snd Translator.symbol_table].
      rewrite dom_insert_L. set_solver.
Qed.

Lemma first_occurrences_elem (l : list string) (x : string) :
  x ∈ first_occurrences l ↔ x ∈ l.
Proof.
  induction l as [|y l IH]; [done|]. cbn [first_occurrences].
  rewrite !elem_of_cons, list_elem_of_filter, IH.
  destruct (decide (x = y)); naive_solver.
Qed.

(** X8. A pass that completes never rebinds a symbol and never lowers the
    free-address counter. The names it adds to the table are the symbolic
    values of its A-instructions, and every address it allocates lies from
    the counter at the start up to, not including, the counter at the
    end. *)
Theorem X8_pass_two_extends_table code self outfile self' :
  Translator.translate c_instruction_map code self = (outfile, Ok self') →
  (∀ name address,
     Translator.symbol_table self !! name = Some address →
     Translator.symbol_table self' !! name = Some address)
  ∧ (Translator.next_free_mem self ≤ Translator.next_free_mem self')%Z
  ∧ dom (Translator.symbol_table self')
    = dom (Translator.symbol_table self) ∪ list_to_set (symbol_refs code)
  ∧ (∀ name address,
       Translator.symbol_table self !! name = None →
       Translator.symbol_table self' !! name = Some address →
       (Translator.next_free_mem self ≤ address
        < Translator.next_free_mem self')%Z).
Proof.
  intros Hrun. apply translate_state in Hrun as ->.
  split; [intros name address; apply allocate_all_preserves|].
  pose proof (allocate_all_next_free (symbol_refs code) self) as Hnext.
  split; [lia|]. split; [apply allocate_all_dom|].
  intros name address Hfree Hbound.
  assert (Hnew : name ∈ new_names (Translator.symbol_table self)
                          (symbol_refs code)).
  { unfold new_names. apply first_occurrences_elem, list_elem_of_filter.
    split; [done|].
    apply elem_of_dom_2 in Hbound. rewrite allocate_all_dom in Hbound.
    apply elem_of_union in Hbound as [Hold|Hin].
    - apply elem_of_dom in Hold as [v Hv]. congruence.
    - by apply elem_of_list_to_set in Hin. }
  apply list_elem_of_lookup in Hnew as [j Hj].
  pose proof (lookup_lt_Some _ _ _ Hj) as Hlt.
  rewrite (allocate_all_new _ _ _ _ Hj) in Hbound.
  injection Hbound as <-. lia.
Qed.

(** X9. The pass writes one word per instruction: as many words as
    instructions when it completes, fewer when it fails, the words written
    before the failure being left in the file. *)
Theorem X9_one_word_per_instruction code self :
  match (Translator.translate c_instruction_map code self).2 with
  | Ok _ =>
      length (Translator.translate c_instruction_map code self).1
      = length code
  | Raise _ =>
      (length (Translator.translate c_instruction_map code self).1
       < length code)%nat
  end.
Proof.
  revert self. induction code as [|line code IH]; intros self; [done|].
  rewrite translate_cons.
  destruct (Translator.encode c_instruction_map line self) as [[w s1]|e].
  - cbn [fst snd]. specialize (IH s1).
    destruct (Translator.translate c_instruction_map code s1).2;
      cbn [length]; lia.
  - cbn. lia.
Qed.

(** X10. Translating a concatenation is translating its first part and, if
    that completes, its second part from the translator the first part
    leaves; a failure in the first part ends the pass. *)
Theorem X10_translate_app (code1 code2 : list string) self :
  Translator.translate c_instruction_map (code1 ++ code2) self
  = match Translator.translate c_instruction_map code1 self with
    | (outfile1, Ok self1) =>
        ((outfile1
          ++ (Translator.translate c_instruction_map code2 self1).1)%list,
         (Translator.translate c_instruction_map code2 self1).2)
    | (outfile1, Raise e) => (outfile1, Raise e)
    end.
Proof.
  revert self. induction code1 as [|line code1 IH]; intros self.
  - cbn [app]. unfold Translator.translate at 2. cbn.
    by destruct (Translator.translate c_instruction_map code2 self).
  - rewrite <- app_comm_cons, !translate_cons.
    destruct (Translator.encode c_instruction_map line self) as [[w s1]|e];
      [|done].
    rewrite IH.
    by destruct (Translator.translate c_instruction_map code1 s1)
      as [o [s2|e]].
Qed.

(** X11. Wherever an A-instruction stands in the code, if its value is a
    literal in 0..32767, or a name the table binds to such an address when
    the pass starts, the word written for it is 0 followed by the 15 bits of
    that address: a symbol bound by pass 1 is resolved the same at every
    reference, and like the literal of its address. *)
Theorem X11_reference_encoded code self (i : nat) (key : string)
    (address : Z) :
  PyStr.int key = Some address
  ∨ (PyStr.int key = None
     ∧ Translator.symbol_table self !! key = Some address) →
  (0 ≤ address ≤ 32767)%Z →
  code !! i = Some (String "@" key) →
  (i < length (Translator.translate c_instruction_map code self).1)%nat →
  (Translator.translate c_instruction_map code self).1 !! i
  = Some (String "0" (bits 15 address)).
Proof.
  intros Hkey Hrange. revert self i Hkey.
  induction code as [|line code IH]; intros self i Hkey Hi Hlen; [done|].
  rewrite translate_cons in Hlen |- *.
  destruct (Translator.encode c_instruction_map line self)
    as [[w s1]|e] eqn:Hline; [|cbn in Hlen; lia].
  cbn [fst] in *. destruct i as [|i].
  - injection Hi as ->. cbn [lookup list_lookup]. f_equal.
    unfold Translator.encode in Hline. cbn [PyStr.startswith] in Hline.
    change (Ascii.eqb "@" "@") with true in Hline. cbv iota in Hline.
    destruct Hkey as [Hint|[Hint Hbound]].
    + rewrite (process_a_literal _ _ _ _ Hint), convert_in_range in Hline
        by done.
      cbn [mbind result_bind] in Hline. congruence.
    + rewrite (process_a_symbol _ _ _ Hint),
        (allocate_bound _ _ _ Hbound), convert_in_range in Hline by done.
      cbn [mbind result_bind] in Hline. congruence.
  - cbn [lookup list_lookup]. apply IH; [|done|cbn [length] in Hlen; lia].
    destruct Hkey as [Hint|[Hint Hbound]]; [by left|right].
    split; [done|]. apply encode_state in Hline as ->.
    by apply allocate_all_preserves.
Qed.

End PassTwo.

Lemma X8_pass_two_extends_table_witness :
  Translator.translate hack_c_map ["@i"; "M=1"; "@KBD"; "@j"]
    (Translator.init SymbolTable._get_defaults)
  = (["0000000000010000"; "1110111111001000";
      "0110000000000000"; "0000000000010001"],
     Ok (Translator.Translator 18
           (<["j" := 17%Z]> (<["i" := 16%Z]> SymbolTable._get_defaults))))
  ∧ (<["j" := 17%Z]> (<["i" := 16%Z]> SymbolTable._get_defaults)) !! "KBD"
    = Some 24576%Z.
Proof.
  assert (Hrun :
    Translator.translate hack_c_map ["@i"; "M=1"; "@KBD"; "@j"]
      (Translator.init SymbolTable._get_defaults)
    = (["0000000000010000"; "1110111111001000";
        "0110000000000000"; "0000000000010001"],
       Ok (Translator.Translator 18
             (<["j" := 17%Z]> (<["i" := 16%Z]> SymbolTable._get_defaults)))))
    by reflexivity.
  split; [exact Hrun|].
  apply (proj1 (X8_pass_two_extends_table hack_c_map _ _ _ _ Hrun)
           "KBD" 24576%Z).
  reflexivity.
Defined.

Lemma X11_reference_encoded_witness :
  let infile := ["@END"; "0;JMP"; "(END)"; "@2"; "@END"] in
  (Reader.read_source infile).2 !! "END" = Some 2%Z
  ∧ (Translator.translate hack_c_map (Reader.read_source infile).1
       (Translator.init (Reader.read_source infile).2)).1 !! 0%nat
    = Some "0000000000000010"
  ∧ (Translator.translate hack_c_map (Reader.read_source infile).1
       (Translator.init (Reader.read_source infile).2)).1 !! 2%nat
    = Some "0000000000000010".
Proof.
  cbn zeta. split; [reflexivity|]. split.
  - apply (X11_reference_encoded hack_c_map
             (Reader.read_source
                ["@END"; "0;JMP"; "(END)"; "@2"; "@END"]).1
             (Translator.init
                (Reader.read_source
                   ["@END"; "0;JMP"; "(END)"; "@2"; "@END"]).2)
             0%nat "END" 2%Z);
      [right; split; reflexivity | lia | reflexivity | vm_compute; lia].
  - apply (X11_reference_encoded hack_c_map
             (Reader.read_source
                ["@END"; "0;JMP"; "(END)"; "@2"; "@END"]).1
             (Translator.init
                (Reader.read_source
                   ["@END"; "0;JMP"; "(END)"; "@2"; "@END"]).2)
             2%nat "2" 2%Z);
      [left; reflexivity | lia | reflexivity | vm_compute; lia].
Defined.


(** ** Reading a word back *)

Section Decoding.

Lemma binary_value_from_app (acc : Z) (s t : string) :
  binary_value_from acc (s ++ t)
  = binary_value_from (binary_value_from acc s) t.
Proof.
  revert acc. induction s as [|c s IH]; intros acc; [done|].
  rewrite string_app_cons. cbn [binary_value_from]. apply IH.
Qed.

(** The digits [bits] writes denote the number, modulo the width. *)
Lemma binary_value_bits (w : nat) (n : Z) :
  binary_value (bits w n) = (n mod 2 ^ Z.of_nat w)%Z.
Proof.
  revert n. induction w as [|w IH]; intros n.
  - cbn. by rewrite Z.mod_1_r.
  - rewrite bits_snoc. unfold binary_value in *.
    rewrite binary_value_from_app, IH, Z.div2_div.
    rewrite Nat2Z.inj_succ, Z.pow_succ_r by lia.
    rewrite (Z.rem_mul_r n 2 (2 ^ Z.of_nat w)) by lia.
    rewrite Zmod_odd. cbn [binary_value_from].
    destruct (Z.odd n); cbn; lia.
Qed.

(** X12. The word of an A-instruction with an address in 0..32767 reads
    back, as a binary number, as that address; so two such addresses with
    the same word are equal. *)
Theorem X12_a_word_round_trip (address : Z) (self : Translator.translator) :
  (0 ≤ address ≤ Translator.A_SIZE)%Z →
  (∃ instr,
     Translator._convert_a_instruction address self = Ok instr
     ∧ String.length instr = 16%nat
     ∧ binary_value instr = address)
  ∧ (∀ address' self',
       (0 ≤ address' ≤ Translator.A_SIZE)%Z →
       Translator._convert_a_instruction address' self'
       = Translator._convert_a_instruction address self →
       address' = address).
Proof.
  assert (Hvalue : ∀ a, (0 ≤ a ≤ Translator.A_SIZE)%Z →
                        binary_value (String "0" (bits 15 a)) = a).
  { intros a Ha. change (binary_value (String "0" (bits 15 a)))
      with (binary_value (bits 15 a)).
    rewrite binary_value_bits. apply Z.mod_small.
    unfold Translator.A_SIZE in Ha. change (Z.of_nat 15) with 15%Z. lia. }
  intros Hrange. split.
  - exists (String "0" (bits 15 address)).
    split; [by apply convert_in_range|].
    split; [|by apply Hvalue].
    cbn [String.length]. by rewrite length_bits.
  - intros address' self' Hrange' Hsame.
    rewrite !convert_in_range in Hsame by done.
    assert (Hword : String "0" (bits 15 address')
                    = String "0" (bits 15 address)) by congruence.
    rewrite <- (Hvalue address), <- (Hvalue address') by done.
    by rewrite Hword.
Qed.

Lemma X12_a_word_round_trip_witness :
  (0 ≤ 16384 ≤ Translator.A_SIZE)%Z
  ∧ ∃ instr,
      Translator._convert_a_instruction 16384
        (Translator.init SymbolTable._get_defaults) = Ok instr
      ∧ String.length instr = 16%nat
      ∧ binary_value instr = 16384%Z.
Proof.
  assert (Hrange : (0 ≤ 16384 ≤ Translator.A_SIZE)%Z)
    by (unfold Translator.A_SIZE; lia).
  split; [exact Hrange|].
  exact (proj1 (X12_a_word_round_trip 16384
                  (Translator.init SymbolTable._get_defaults) Hrange)).
Defined.

End Decoding.

(** ** The delimiters of a C-instruction *)

Section Delimiters.

Variable c_instruction_map : Translator.c_map.

Implicit Types (s t rest : string) (c : ascii).

Lemma contains_app c s t :
  PyStr.contains c (s ++ t) = PyStr.contains c s || PyStr.contains c t.
Proof.
  induction s as [|d s IH]; [done|].
  rewrite string_app_cons. cbn [PyStr.contains]. by rewrite IH, orb_assoc.
Qed.

Lemma contains_cons_same c s : PyStr.contains c (String c s) = true.
Proof. cbn [PyStr.contains]. by rewrite Ascii.eqb_refl. Qed.

(** Without the separator there is one part; with it, the text before its
    first occurrence is the first part. *)
Lemma split_none c s : PyStr.contains c s = false → PyStr.split c s = [s].
Proof.
  induction s as [|d s IH]; [done|]. cbn [PyStr.contains PyStr.split].
  intros [Hd Hs]%orb_false_elim. by rewrite Hd, (IH Hs).
Qed.

Lemma split_first c s t :
  PyStr.contains c s = false →
  PyStr.split c (s ++ String c t) = s :: PyStr.split c t.
Proof.
  induction s as [|d s IH].
  - intros _. change ("" ++ String c t) with (String c t).
    cbn [PyStr.split]. by rewrite Ascii.eqb_refl.
  - cbn [PyStr.contains]. intros [Hd Hs]%orb_false_elim.
    rewrite string_app_cons. cbn [PyStr.split]. by rewrite Hd, (IH Hs).
Qed.

(** The two parts a delimiter separates, whatever follows a second one. *)
Lemma split_two_parts c s t (tail : string) :
  PyStr.contains c s = false →
  PyStr.contains c t = false →
  tail = EmptyString ∨ (∃ rest, tail = String c rest) →
  Translator.item (PyStr.split c (s ++ String c (t ++ tail))) 0 = s
  ∧ Translator.item (PyStr.split c (s ++ String c (t ++ tail))) 1 = t.
Proof.
  intros Hs Ht Htail. rewrite (split_first _ _ _ Hs).
  split; [done|]. destruct Htail as [->|[rest ->]].
  - by rewrite string_app_nil_r, (split_none _ _ Ht).
  - by rewrite (split_first _ _ _ Ht).
Qed.

Lemma process_c_dest_parts (dest_v comp_v tail : string) :
  PyStr.contains "=" dest_v = false →
  PyStr.contains "=" comp_v = false →
  tail = EmptyString ∨ (∃ rest, tail = String "=" rest) →
  Translator.process_c_instruction c_instruction_map
    (dest_v ++ String "=" (comp_v ++ tail))
  = Translator._convert_c_instruction c_instruction_map
      comp_v dest_v "null".
Proof.
  intros Hd Hc Htail.
  rewrite process_c_dest_form
    by (by rewrite contains_app, contains_cons_same, orb_true_r).
  by destruct (split_two_parts "=" _ _ _ Hd Hc Htail) as [-> ->].
Qed.

Lemma process_c_jump_parts (comp_v jmp_v tail : string) :
  PyStr.contains "=" (comp_v ++ String ";" (jmp_v ++ tail)) = false →
  PyStr.contains ";" comp_v = false →
  PyStr.contains ";" jmp_v = false →
  tail = EmptyString ∨ (∃ rest, tail = String ";" rest) →
  Translator.process_c_instruction c_instruction_map
    (comp_v ++ String ";" (jmp_v ++ tail))
  = Translator._convert_c_instruction c_instruction_map
      comp_v "null" jmp_v.
Proof.
  intros Heq Hc Hj Htail.
  rewrite (process_c_jump_form _ _ Heq)
    by (by rewrite contains_app, contains_cons_same, orb_true_r).
  by destruct (split_two_parts ";" _ _ _ Hc Hj Htail) as [-> ->].
Qed.

(** X13. A line dest=comp is encoded from the text before the first [=] as
    destination and the text up to the next [=], if any, as computation; a
    line comp;jmp without [=] from the text before the first [;] and the
    text up to the next [;]. Whatever follows a second delimiter is
    ignored. *)
Theorem X13_c_instruction_parts :
  (∀ dest_v comp_v rest,
     PyStr.contains "=" dest_v = false →
     PyStr.contains "=" comp_v = false →
     Translator.process_c_instruction c_instruction_map
       (dest_v ++ "=" ++ comp_v)
     = Translator._convert_c_instruction c_instruction_map
         comp_v dest_v "null"
     ∧ Translator.process_c_instruction c_instruction_map
         (dest_v ++ "=" ++ comp_v ++ "=" ++ rest)
       = Translator.process_c_instruction c_instruction_map
           (dest_v ++ "=" ++ comp_v))
  ∧ (∀ comp_v jmp_v rest,
       PyStr.contains "=" (comp_v ++ jmp_v ++ rest) = false →
       PyStr.contains ";" comp_v = false →
       PyStr.contains ";" jmp_v = false →
       Translator.process_c_instruction c_instruction_map
         (comp_v ++ ";" ++ jmp_v)
       = Translator._convert_c_instruction c_instruction_map
           comp_v "null" jmp_v
       ∧ Translator.process_c_instruction c_instruction_map
           (comp_v ++ ";" ++ jmp_v ++ ";" ++ rest)
         = Translator.process_c_instruction c_instruction_map
             (comp_v ++ ";" ++ jmp_v)).
Proof.
  split.
  - intros dest_v comp_v rest Hd Hc.
    pose proof (process_c_dest_parts dest_v comp_v "" Hd Hc (or_introl eq_refl))
      as Hone.
    rewrite string_app_nil_r in Hone.
    split; [exact Hone|].
    change (dest_v ++ "=" ++ comp_v) with (dest_v ++ String "=" comp_v).
    rewrite Hone.
    apply (process_c_dest_parts dest_v comp_v (String "=" rest) Hd Hc).
    right. by exists rest.
  - intros comp_v jmp_v rest Heq Hc Hj.
    rewrite !contains_app in Heq.
    apply orb_false_elim in Heq as [Heqc Heq].
    apply orb_false_elim in Heq as [Heqj Heqr].
    assert (Hone : Translator.process_c_instruction c_instruction_map
                     (comp_v ++ String ";" jmp_v)
                   = Translator._convert_c_instruction c_instruction_map
                       comp_v "null" jmp_v).
    { rewrite <- (string_app_nil_r jmp_v) at 1.
      apply process_c_jump_parts; [|done|done|by left].
      rewrite contains_app. cbn [PyStr.contains].
      by rewrite Heqc, contains_app, Heqj. }
    split; [exact Hone|].
    change (comp_v ++ ";" ++ jmp_v) with (comp_v ++ String ";" jmp_v).
    rewrite Hone.
    apply (process_c_jump_parts comp_v jmp_v (String ";" rest));
      [|done|done|right; by exists rest].
    rewrite contains_app. cbn [PyStr.contains].
    rewrite Heqc, contains_app, Heqj. cbn [PyStr.contains]. by rewrite Heqr.
Qed.

(** X14. The three-part form dest=comp;jmp is not supported: the text after
    the [=] is looked up whole, semicolon and jump included, as a
    computation mnemonic, and the jump field is the one of [null]. Unless
    the table holds that text as a computation, the line fails with a
    [KeyError] naming it. *)
Theorem X14_three_part_form_unsupported (dest_v comp_v jmp_v : string) :
  PyStr.contains "=" dest_v = false →
  PyStr.contains "=" comp_v = false →
  PyStr.contains "=" jmp_v = false →
  Translator.process_c_instruction c_instruction_map
    (dest_v ++ "=" ++ comp_v ++ ";" ++ jmp_v)
  = Translator._convert_c_instruction c_instruction_map
      (comp_v ++ ";" ++ jmp_v) dest_v "null"
  ∧ (Translator.comp c_instruction_map !! (comp_v ++ ";" ++ jmp_v) = None →
     Translator.process_c_instruction c_instruction_map
       (dest_v ++ "=" ++ comp_v ++ ";" ++ jmp_v)
     = Raise (KeyError (comp_v ++ ";" ++ jmp_v))).
Proof.
  intros Hd Hc Hj.
  assert (Hparse :
    Translator.process_c_instruction c_instruction_map
      (dest_v ++ "=" ++ comp_v ++ ";" ++ jmp_v)
    = Translator._convert_c_instruction c_instruction_map
        (comp_v ++ ";" ++ jmp_v) dest_v "null").
  { pose proof (process_c_dest_parts dest_v (comp_v ++ ";" ++ jmp_v) ""
                  Hd) as Hone.
    rewrite string_app_nil_r in Hone. apply Hone; [|by left].
    rewrite contains_app. cbn [PyStr.contains].
    change (";" ++ jmp_v) with (String ";" jmp_v). cbn [PyStr.contains].
    by rewrite Hc, Hj. }
  split; [exact Hparse|]. intros Hmiss. rewrite Hparse.
  unfold Translator._convert_c_instruction, Translator.lookup_field.
  by rewrite Hmiss.
Qed.

End Delimiters.

Lemma X13_c_instruction_parts_witness :
  PyStr.contains "=" "MD" = false ∧ PyStr.contains "=" "D+1" = false
  ∧ Translator.process_c_instruction hack_c_map "MD=D+1=junk"
    = Translator.process_c_instruction hack_c_map "MD=D+1"
  ∧ Translator.process_c_instruction hack_c_map "MD=D+1"
    = Ok "1110011111011000".
Proof.
  split; [reflexivity|]. split; [reflexivity|].
  destruct (proj1 (X13_c_instruction_parts hack_c_map) "MD" "D+1" "junk"
              eq_refl eq_refl) as [Hone Hrest].
  split; [exact Hrest|]. etransitivity; [exact Hone|]. reflexivity.
Defined.

Lemma X14_three_part_form_unsupported_witness :
  PyStr.contains "=" "D" = false ∧ PyStr.contains "=" "M" = false
  ∧ PyStr.contains "=" "JGT" = false
  ∧ Translator.comp hack_c_map !! "M;JGT" = None
  ∧ Translator.process_c_instruction hack_c_map "D=M;JGT"
    = Raise (KeyError "M;JGT").
Proof.
  split; [reflexivity|]. split; [reflexivity|]. split; [reflexivity|].
  split; [reflexivity|].
  apply (proj2 (X14_three_part_form_unsupported hack_c_map "D" "M" "JGT"
                  eq_refl eq_refl eq_refl)).
  reflexivity.
Defined.

(** ** Searching and splitting on a tag *)

Section Tags.

Implicit Types (s t a b sub : string) (c d : ascii).

Lemma prefix_cons c d t s :
  String.prefix (String c t) (String d s)
  = if Ascii.eqb c d then String.prefix t s else false.
Proof.
  cbn [String.prefix]. destruct (ascii_dec c d) as [->|Hne].
  - by rewrite Ascii.eqb_refl.
  - by apply Ascii.eqb_neq in Hne as ->.
Qed.

Lemma prefix_app sub b : String.prefix sub (sub ++ b) = true.
Proof.
  induction sub as [|c sub IH]; [by destruct b|].
  rewrite string_app_cons, prefix_cons. by rewrite Ascii.eqb_refl.
Qed.

Lemma prefix_occurs sub s :
  String.prefix sub s = true → ∃ b, s = sub ++ b.
Proof.
  revert s. induction sub as [|c sub IH]; intros s; [by exists s|].
  destruct s as [|d s]; [discriminate|]. rewrite prefix_cons.
  destruct (Ascii.eqb_spec c d) as [->|]; [|discriminate].
  intros [b ->]%IH. by exists b.
Qed.

(** One step of [find]. *)
Lemma find_cons sub c s :
  PyStr.find sub (String c s)
  = if String.prefix sub (String c s) then 0%Z
    else if (PyStr.find sub s <? 0)%Z then (-1)%Z
         else (PyStr.find sub s + 1)%Z.
Proof. reflexivity. Qed.

Lemma find_occurs sub s :
  (0 ≤ PyStr.find sub s)%Z → ∃ a b, s = a ++ sub ++ b.
Proof.
  induction s as [|c s IH].
  - cbn [PyStr.find]. destruct (String.prefix sub "") eqn:Hp; [|lia].
    intros _. apply prefix_occurs in Hp as [b ->]. by exists "", b.
  - rewrite find_cons. destruct (String.prefix sub (String c s)) eqn:Hp.
    + intros _. apply prefix_occurs in Hp as [b ->]. by exists "", b.
    + destruct (Z.ltb_spec (PyStr.find sub s) 0); [lia|]. intros _.
      destruct IH as (a & b & ->); [lia|]. by exists (String c a), b.
Qed.

Lemma find_absent c t s :
  PyStr.contains c s = false → PyStr.find (String c t) s = (-1)%Z.
Proof.
  induction s as [|d s IH]; [done|]. cbn [PyStr.contains].
  intros [Hd Hs]%orb_false_elim. rewrite find_cons, prefix_cons, Hd.
  by rewrite (IH Hs).
Qed.

(** With no earlier occurrence of its first character, a tag is found where
    it stands. *)
Lemma find_first c t a b :
  PyStr.contains c a = false →
  PyStr.find (String c t) (a ++ String c t ++ b) = PyStr.len a.
Proof.
  induction a as [|d a IH].
  - intros _. change ("" ++ String c t ++ b) with (String c t ++ b).
    destruct (String c t ++ b) eqn:Heq; [discriminate|].
    rewrite find_cons, <- Heq. by rewrite prefix_app.
  - cbn [PyStr.contains]. intros [Hd Ha]%orb_false_elim.
    rewrite string_app_cons, find_cons, prefix_cons, Hd, (IH Ha).
    unfold PyStr.len. cbn [String.length].
    destruct (Z.ltb_spec (Z.of_nat (String.length a)) 0); lia.
Qed.

(** Another tag with the same first character is found there or nowhere. *)
Lemma find_other c t a u :
  PyStr.contains c a = false →
  PyStr.contains c u = false →
  String.prefix t u = false →
  PyStr.find (String c t) (a ++ String c u) = (-1)%Z.
Proof.
  intros Ha Hu Ht. induction a as [|d a IH].
  - change ("" ++ String c u) with (String c u).
    rewrite find_cons, prefix_cons, Ascii.eqb_refl, Ht.
    by rewrite (find_absent _ _ _ Hu).
  - cbn [PyStr.contains] in Ha. apply orb_false_elim in Ha as [Hd Ha].
    rewrite string_app_cons, find_cons, prefix_cons, Hd. by rewrite (IH Ha).
Qed.

Lemma split_sep_nonempty sub s (skip : nat) : PyStr.split_sep sub s skip ≠ [].
Proof.
  revert skip. induction s as [|c s IH]; intros skip; [done|].
  cbn [PyStr.split_sep]. destruct skip; [|apply IH].
  destruct (String.prefix sub (String c s)); [done|].
  by destruct (PyStr.split_sep sub s 0).
Qed.

(** The characters of an occurrence are passed over. *)
Lemma split_sep_skip sub t b :
  PyStr.split_sep sub (t ++ b) (String.length t) = PyStr.split_sep sub b 0.
Proof.
  induction t as [|c t IH]; [done|].
  rewrite string_app_cons. cbn [String.length PyStr.split_sep]. apply IH.
Qed.

Lemma split_sep_absent c t s :
  PyStr.contains c s = false → PyStr.split_sep (String c t) s 0 = [s].
Proof.
  induction s as [|d s IH]; [done|]. cbn [PyStr.contains].
  intros [Hd Hs]%orb_false_elim.
  cbn [PyStr.split_sep]. rewrite prefix_cons, Hd. by rewrite (IH Hs).
Qed.

Lemma split_sep_first c t a b :
  PyStr.contains c a = false →
  PyStr.split_sep (String c t) (a ++ String c t ++ b) 0
  = a :: PyStr.split_sep (String c t) b 0.
Proof.
  induction a as [|d a IH].
  - intros _. change ("" ++ String c t ++ b) with (String c (t ++ b)).
    cbn [PyStr.split_sep]. rewrite prefix_cons, Ascii.eqb_refl, prefix_app.
    replace (String.length (String c t) - 1)%nat with (String.length t)
      by (cbn [String.length]; lia).
    by rewrite split_sep_skip.
  - cbn [PyStr.contains]. intros [Hd Ha]%orb_false_elim.
    rewrite string_app_cons. cbn [PyStr.split_sep].
    by rewrite prefix_cons, Hd, (IH Ha).
Qed.

Lemma split_sep_length sub s (skip : nat) :
  (1 ≤ length (PyStr.split_sep sub s skip))%nat.
Proof.
  pose proof (split_sep_nonempty sub s skip).
  destruct (PyStr.split_sep sub s skip); [done|cbn [length]; lia].
Qed.

(** A string that holds the separator splits in two parts at least. *)
Lemma split_sep_occurs c t a b :
  (2 ≤ length (PyStr.split_sep (String c t) (a ++ String c t ++ b) 0))%nat.
Proof.
  induction a as [|d a IH].
  - change ("" ++ String c t ++ b) with (String c (t ++ b)).
    cbn [PyStr.split_sep]. rewrite prefix_cons, Ascii.eqb_refl, prefix_app.
    cbn [length].
    pose proof (split_sep_length (String c t) (t ++ b)
                  (String.length (String c t) - 1)).
    lia.
  - rewrite string_app_cons. cbn [PyStr.split_sep].
    destruct (String.prefix _ _).
    + cbn [length].
      pose proof (split_sep_length (String c t) (a ++ String c t ++ b)
                    (String.length (String c t) - 1)).
      lia.
    + destruct (PyStr.split_sep _ _ 0) as [|hd tl]; [cbn in IH; lia|done].
Qed.

End Tags.

(** ** Stripping around a tag, and removing white space *)

Section AroundTags.

Implicit Types (s t a b : string) (c d : ascii).

Lemma lstrip_app_nonspace a c t :
  PyStr.is_space c = false →
  PyStr.lstrip (a ++ String c t) = PyStr.lstrip a ++ String c t.
Proof.
  intros Hc. induction a as [|d a IH].
  - change ("" ++ String c t) with (String c t).
    cbn [PyStr.lstrip]. by rewrite Hc.
  - rewrite string_app_cons. cbn [PyStr.lstrip].
    destruct (PyStr.is_space d); [done|]. by rewrite string_app_cons.
Qed.

Lemma rstrip_app_nonspace a c b :
  PyStr.is_space c = false →
  PyStr.rstrip (a ++ String c b) = a ++ String c (PyStr.rstrip b).
Proof.
  intros Hc. induction a as [|d a IH].
  - change ("" ++ String c b) with (String c b).
    cbn [PyStr.rstrip]. destruct (PyStr.rstrip b); [by rewrite Hc|done].
  - rewrite !string_app_cons.
    destruct (rstrip_cons d (a ++ String c b)) as [Hnil|Hcons].
    + cbn [PyStr.rstrip] in Hnil. rewrite IH in Hnil.
      by destruct a.
    + by rewrite Hcons, IH.
Qed.

(** Stripping a line strips what stands before and after a tag. *)
Lemma strip_around_tag a (field : string) b :
  PyStr.strip (a ++ "<" ++ field ++ ">" ++ b)
  = PyStr.lstrip a ++ "<" ++ field ++ ">" ++ PyStr.rstrip b.
Proof.
  unfold PyStr.strip.
  change (a ++ "<" ++ field ++ ">" ++ b)
    with (a ++ String "<" (field ++ ">" ++ b)).
  rewrite lstrip_app_nonspace by done.
  change (PyStr.lstrip a ++ String "<" (field ++ ">" ++ b))
    with (PyStr.lstrip a ++ "<" ++ field ++ String ">" b).
  rewrite <- (string_app_assoc "<" field), <- string_app_assoc.
  rewrite rstrip_app_nonspace by done.
  by rewrite string_app_assoc, (string_app_assoc "<" field).
Qed.

Lemma contains_lstrip c s :
  PyStr.contains c s = false → PyStr.contains c (PyStr.lstrip s) = false.
Proof.
  induction s as [|d s IH]; [done|]. intros Hs. cbn [PyStr.lstrip].
  destruct (PyStr.is_space d); [|done]. apply IH.
  cbn [PyStr.contains] in Hs. by apply orb_false_elim in Hs as [_ ?].
Qed.

Lemma contains_rstrip c s :
  PyStr.contains c s = false → PyStr.contains c (PyStr.rstrip s) = false.
Proof.
  induction s as [|d s IH]; [done|]. cbn [PyStr.contains].
  intros [Hd Hs]%orb_false_elim.
  destruct (rstrip_cons d s) as [-> | ->]; [done|].
  cbn [PyStr.contains]. by rewrite Hd, (IH Hs).
Qed.

Lemma without_spaces_idem s :
  without_spaces (without_spaces s) = without_spaces s.
Proof.
  induction s as [|c s IH]; [done|]. cbn [without_spaces].
  destruct (PyStr.is_space c) eqn:Hc; [done|].
  cbn [without_spaces]. by rewrite Hc, IH.
Qed.

Lemma without_spaces_lstrip s :
  without_spaces (PyStr.lstrip s) = without_spaces s.
Proof.
  induction s as [|c s IH]; [done|]. cbn [PyStr.lstrip without_spaces].
  destruct (PyStr.is_space c) eqn:Hc; [done|].
  cbn [without_spaces]. by rewrite Hc.
Qed.

Lemma without_spaces_rstrip s :
  without_spaces (PyStr.rstrip s) = without_spaces s.
Proof.
  induction s as [|c s IH]; [done|]. cbn [PyStr.rstrip without_spaces].
  destruct (PyStr.rstrip s) as [|d r] eqn:Hr.
  - rewrite <- IH. destruct (PyStr.is_space c) eqn:Hc; [done|].
    cbn [without_spaces]. by rewrite Hc.
  - change (without_spaces (String c (String d r)))
      with (if PyStr.is_space c then without_spaces (String d r)
            else String c (without_spaces (String d r))).
    by rewrite IH.
Qed.

Lemma without_spaces_strip s :
  without_spaces (PyStr.strip s) = without_spaces s.
Proof.
  unfold PyStr.strip. by rewrite without_spaces_rstrip, without_spaces_lstrip.
Qed.

Lemma concat_cons (x : string) (l : list string) :
  String.concat "" (x :: l) = x ++ String.concat "" l.
Proof. destruct l; [by rewrite string_app_nil_r|reflexivity]. Qed.

(** Joining the words of a string removes its white space. *)
Lemma join_split_ws s :
  PyStr.join "" (PyStr.split_ws s) = without_spaces s.
Proof.
  unfold PyStr.join. induction s as [|c s IH]; [done|].
  cbn [PyStr.split_ws without_spaces].
  destruct (PyStr.is_space c); [done|].
  destruct (PyStr.at_space s).
  - by rewrite concat_cons, IH.
  - rewrite <- IH. destruct (PyStr.split_ws s) as [|hd tl]; [done|].
    by rewrite !concat_cons.
Qed.

End AroundTags.

(** ** Building the mnemonic table *)

Section SetupMap.

Implicit Types (cmap : Translator.c_map) (field key code line : string).
Implicit Types (a b : string) (infile : list string).

Lemma tag_assoc a field b :
  a ++ ("<" ++ field ++ ">") ++ b = a ++ "<" ++ field ++ ">" ++ b.
Proof. by rewrite (string_app_assoc "<"), (string_app_assoc field). Qed.

(** X15. Whenever the guard of [_setup_c_map] finds the tag of a field in a
    line, after column 0, the stripped line splits on the tag in two parts
    at least: the indexing of the second part cannot fail. *)
Theorem X15_setup_parts_in_range field line :
  (PyStr.find ("<" ++ field ++ ">") line > 0)%Z →
  (2 ≤ length (PyStr.split_sep ("<" ++ field ++ ">") (PyStr.strip line) 0))%nat.
Proof.
  intros Hfound.
  destruct (find_occurs ("<" ++ field ++ ">") line) as (a & b & ->); [lia|].
  rewrite tag_assoc, strip_around_tag, <- tag_assoc.
  apply (split_sep_occurs "<" (field ++ ">") (PyStr.lstrip a) (PyStr.rstrip b)).
Qed.

Lemma X15_setup_parts_in_range_witness :
  (PyStr.find ("<" ++ "dest" ++ ">") "  AMD <dest> 1 1 1  " > 0)%Z
  ∧ (2 ≤ length (PyStr.split_sep ("<" ++ "dest" ++ ">")
                   (PyStr.strip "  AMD <dest> 1 1 1  ") 0))%nat.
Proof.
  assert (Hfound : (PyStr.find ("<" ++ "dest" ++ ">")
                      "  AMD <dest> 1 1 1  " > 0)%Z) by reflexivity.
  split; [exact Hfound|].
  exact (X15_setup_parts_in_range "dest" "  AMD <dest> 1 1 1  " Hfound).
Defined.

Lemma set_item_clean field key code cmap :
  PyStr.strip key = key → without_spaces code = code →
  entries_clean cmap →
  entries_clean (Translator.set_item field key code cmap).
Proof.
  intros Hkey Hcode Hclean key' code'. unfold Translator.set_item.
  destruct (String.eqb field "comp"); [|destruct (String.eqb field "dest")];
    cbn [Translator.comp Translator.dest Translator.jmp];
    rewrite lookup_insert_Some; intros Hin;
    (destruct (decide (key = key' ∧ code = code')) as [[<- <-]|Hne];
     [done|]); apply Hclean; intuition.
Qed.

Lemma setup_line_clean cmap line :
  entries_clean cmap → entries_clean (Translator.setup_line cmap line).
Proof.
  unfold Translator.setup_line. generalize Translator.C_FIELDS.
  intros fields. revert cmap.
  induction fields as [|field fields IH]; intros cmap Hclean; [done|].
  cbn [foldl]. apply IH. unfold Translator.setup_field.
  destruct (PyStr.find _ line >? 0)%Z; [|done].
  apply set_item_clean; [apply strip_idem | | done].
  rewrite join_split_ws. apply without_spaces_idem.
Qed.

(** X16. In the table [_setup_c_map] builds, whatever the file, no mnemonic
    has white space at either end and no code holds white space. *)
Theorem X16_setup_entries_clean infile key code :
  Translator.comp (Translator._setup_c_map infile) !! key = Some code
  ∨ Translator.dest (Translator._setup_c_map infile) !! key = Some code
  ∨ Translator.jmp (Translator._setup_c_map infile) !! key = Some code →
  PyStr.strip key = key ∧ without_spaces code = code.
Proof.
  enough (Hall : ∀ cmap, entries_clean cmap →
                         entries_clean (foldl Translator.setup_line cmap infile)).
  { apply Hall. intros key' code'.
    cbn [Translator.comp Translator.dest Translator.jmp].
    rewrite !lookup_empty. by intros [H|[H|H]]. }
  induction infile as [|line infile IH]; intros cmap Hclean; [done|].
  cbn [foldl]. by apply IH, setup_line_clean.
Qed.

Lemma X16_setup_entries_clean_witness :
  Translator.comp (Translator._setup_c_map ["  D+A   <comp>  0 000 010  "])
    !! "D+A" = Some "0000010"
  ∧ PyStr.strip "D+A" = "D+A" ∧ without_spaces "0000010" = "0000010".
Proof.
  split; [reflexivity|].
  apply (X16_setup_entries_clean ["  D+A   <comp>  0 000 010  "]
           "D+A" "0000010").
  left. reflexivity.
Defined.

End SetupMap.
